(** * Relevance search and context construction of the ARGO chatbot

    A shallow embedding of the methods [_month_to_number],
    [search_relevant_data], [search_relevant_data_flexible] and
    [create_context_summary] of class [EnhancedARGOChatbot]
    (file [1mainfile.py]), with the properties of its specification, and
    of the parts of [main] that call them: the upload of a file, the
    context of a request and the list of the source data.

    Modelling conventions.
    - A Python [str] is a [string]: a sequence of code points below 256
      (each [ascii] is one code point, so the degree sign is the single
      character 176).  Character classes, [str.lower] and [str.isdigit]
      are those of CPython on that range.
    - Integers are [Z]; the statistics of a variable are binary64 values
      ([spec_float]).
    - A profile is the JSON object of the data model, as a record whose
      fields are optional: [None] is a key that is absent (or null, for a
      leaf that is read with [.get(key)]).
    - An exception is a value [Raise e] of the type [result]. *)

From Stdlib Require Import ZArith NArith List Bool Ascii String Lia.
From Stdlib Require Import Sorting.Sorted Sorting.Permutation.
From Stdlib Require Import Floats.SpecFloat.
From Stdlib Require Import Numbers.DecimalString.
From Stdlib Require DecimalPos DecimalZ.
Import ListNotations.

Open Scope string_scope.
Open Scope Z_scope.

(** ** Exceptions *)

Inductive exn : Type :=
| TypeError
| ValueError.

Inductive result (A : Type) : Type :=
| Ok (a : A)
| Raise (e : exn).

Arguments Ok {A} a.
Arguments Raise {A} e.

Definition rbind {A B : Type} (c : result A) (k : A -> result B) : result B :=
  match c with
  | Ok a => k a
  | Raise e => Raise e
  end.

Declare Scope result_scope.
Delimit Scope result_scope with result.
Notation "'let*' x ':=' c 'in' k" := (rbind c (fun x => k))
  (at level 10, x name, c at level 100, k at level 200) : result_scope.

(** ** Characters and strings *)

Module Str.

Definition code (c : ascii) : N := N_of_ascii c.

Definition between (lo hi n : N) : bool := ((lo <=? n) && (n <=? hi))%N.

(** [\d]: the decimal digits. *)
Definition is_decimal (c : ascii) : bool := between 48 57 (code c).

(** [str.isdigit] on one character: decimal digits and the superscripts
    one, two and three. *)
Definition is_digit (c : ascii) : bool :=
  let n := code c in
  (between 48 57 n || (n =? 178) || (n =? 179) || (n =? 185))%N.

(** [\s]. *)
Definition is_space (c : ascii) : bool :=
  let n := code c in
  (between 9 13 n || between 28 32 n || (n =? 133) || (n =? 160))%N.

(** [\w]: alphanumeric characters and the underscore. *)
Definition is_word (c : ascii) : bool :=
  let n := code c in
  (between 48 57 n || between 65 90 n || (n =? 95) || between 97 122 n
   || (n =? 170) || (n =? 178) || (n =? 179) || (n =? 181) || (n =? 185)
   || (n =? 186) || between 188 190 n || between 192 214 n
   || between 216 246 n || between 248 255 n)%N.

Definition is_upper (c : ascii) : bool :=
  let n := code c in
  (between 65 90 n || between 192 214 n || between 216 222 n)%N.

Definition lower_char (c : ascii) : ascii :=
  if is_upper c then ascii_of_N (code c + 32) else c.

(** [s.lower()] *)
Fixpoint lower (s : string) : string :=
  match s with
  | EmptyString => EmptyString
  | String c s' => String (lower_char c) (lower s')
  end.

(** [s.startswith(p)] *)
Fixpoint startswith (p s : string) : bool :=
  match p with
  | EmptyString => true
  | String a p' =>
      match s with
      | EmptyString => false
      | String b s' => Ascii.eqb a b && startswith p' s'
      end
  end.

(** [needle in hay] *)
Fixpoint contains (needle hay : string) : bool :=
  startswith needle hay ||
  match hay with
  | EmptyString => false
  | String _ hay' => contains needle hay'
  end.

Fixpoint forallb (f : ascii -> bool) (s : string) : bool :=
  match s with
  | EmptyString => true
  | String c s' => f c && forallb f s'
  end.

(** [s.isdigit()] *)
Definition isdigit (s : string) : bool :=
  match s with
  | EmptyString => false
  | _ => forallb is_digit s
  end.

(** [s.replace(a, b)] for one-character [a] and [b]. *)
Fixpoint replace_char (a b : ascii) (s : string) : string :=
  match s with
  | EmptyString => EmptyString
  | String c s' =>
      String (if Ascii.eqb c a then b else c) (replace_char a b s')
  end.

(** [s[:n]] *)
Fixpoint take (n : nat) (s : string) : string :=
  match n, s with
  | S n', String c s' => String c (take n' s')
  | _, _ => EmptyString
  end.

(** [sep.join(l)] *)
Fixpoint join (sep : string) (l : list string) : string :=
  match l with
  | [] => EmptyString
  | [x] => x
  | x :: l' => x ++ sep ++ join sep l'
  end.

Definition digit_val (c : ascii) : Z := Z.of_N (code c) - 48.

Fixpoint int_acc (acc : Z) (s : string) : Z :=
  match s with
  | EmptyString => acc
  | String c s' => int_acc (10 * acc + digit_val c) s'
  end.

(** [sys.int_info.default_max_str_digits]: the interpreter's bound on the
    number of digits of a decimal string that [int] converts. *)
Definition max_str_digits : Z := 4300.

(** [int(s)], for the strings the program passes to it: a non-empty run
    of at most [max_str_digits] decimal digits is its value; a longer
    run, or a string with any other character (a month name), is a
    [ValueError]. *)
Definition int (s : string) : result Z :=
  match s with
  | EmptyString => Raise ValueError
  | _ =>
      if forallb is_decimal s
         && (Z.of_nat (String.length s) <=? max_str_digits)
      then Ok (int_acc 0 s)
      else Raise ValueError
  end.

(** [str(n)] for an integer. *)
Definition of_Z (n : Z) : string := NilZero.string_of_int (Z.to_int n).

Fixpoint zeros (n : nat) : string :=
  match n with
  | O => EmptyString
  | S n' => String "0" (zeros n')
  end.

(** [format(n, '02d')]: the sign counts in the width. *)
Definition format_02d (n : Z) : string :=
  if n <? 0 then of_Z n
  else let d := of_Z n in zeros (2 - length d) ++ d.

End Str.

(** ** Regular expressions

    The fragment of Python's [re] that the program uses, with the
    semantics of its backtracking matcher: alternatives are tried from
    left to right, a repetition takes as many characters as it can before
    it gives some back, and a search returns the match that starts
    leftmost. *)

Module Re.

Inductive regex : Type :=
| Lit (s : string)
| Rep (cls : ascii -> bool) (lo : nat) (hi : option nat)
| Seq (r1 r2 : regex)
| Alt (r1 r2 : regex)
| Group (r : regex)
| Opt (r : regex)
| WordB.

(** A position in the subject: the character before it and the text from
    it on. *)
Record pos : Type := mkPos { before : option ascii; rest : string }.

Definition step (c : ascii) (s : string) : pos := mkPos (Some c) s.

Fixpoint lit (l : string) (p : pos) : option pos :=
  match l with
  | EmptyString => Some p
  | String a l' =>
      match rest p with
      | String c s' => if Ascii.eqb a c then lit l' (step c s') else None
      | EmptyString => None
      end
  end.

Definition word_before (p : pos) : bool :=
  match before p with Some c => Str.is_word c | None => false end.

Definition word_after (p : pos) : bool :=
  match rest p with String c _ => Str.is_word c | EmptyString => false end.

Definition orelse {A : Type} (a b : option A) : option A :=
  match a with Some _ => a | None => b end.

Section Matcher.

Context {R : Type}.

(** A continuation gets the text just matched, the position reached and
    the groups closed so far, first group first. *)
Definition cont : Type := string -> pos -> list string -> option R.

(** [cls{lo,}]: as many characters as possible first. *)
Fixpoint rep_from (cls : ascii -> bool) (lo : nat) (before : option ascii)
    (s : string) (k : string -> pos -> option R) {struct s} : option R :=
  let stop :=
    match lo with O => k EmptyString (mkPos before s) | S _ => None end in
  match s with
  | String c s' =>
      if cls c
      then orelse (rep_from cls (pred lo) (Some c) s'
                     (fun t p' => k (String c t) p'))
                  stop
      else stop
  | EmptyString => stop
  end.

(** [cls{lo,hi}] *)
Fixpoint rep_upto (cls : ascii -> bool) (lo hi : nat)
    (before : option ascii) (s : string) (k : string -> pos -> option R)
    {struct hi} : option R :=
  let stop :=
    match lo with O => k EmptyString (mkPos before s) | S _ => None end in
  match hi with
  | O => stop
  | S hi' =>
      match s with
      | String c s' =>
          if cls c
          then orelse (rep_upto cls (pred lo) hi' (Some c) s'
                         (fun t p' => k (String c t) p'))
                      stop
          else stop
      | EmptyString => stop
      end
  end.

Fixpoint run (r : regex) (p : pos) (caps : list string) (k : cont)
  : option R :=
  match r with
  | Lit l => match lit l p with Some p' => k l p' caps | None => None end
  | Rep cls lo None =>
      rep_from cls lo (before p) (rest p) (fun t p' => k t p' caps)
  | Rep cls lo (Some hi) =>
      rep_upto cls lo hi (before p) (rest p) (fun t p' => k t p' caps)
  | Seq r1 r2 =>
      run r1 p caps (fun t1 p1 caps1 =>
        run r2 p1 caps1 (fun t2 p2 caps2 => k (t1 ++ t2) p2 caps2))
  | Alt r1 r2 => orelse (run r1 p caps k) (run r2 p caps k)
  | Group r1 => run r1 p caps (fun t p' caps' => k t p' (caps' ++ [t])%list)
  | Opt r1 => orelse (run r1 p caps k) (k EmptyString p caps)
  | WordB =>
      if xorb (word_before p) (word_after p) then k EmptyString p caps
      else None
  end.

End Matcher.

(** A match: its groups, its text and the position where it ends. *)
Record found : Type :=
  mkFound { groups : list string; text : string; stop : pos }.

Definition match_at (r : regex) (p : pos) : option found :=
  run r p [] (fun t p' caps => Some (mkFound caps t p')).

Fixpoint search_from (r : regex) (before : option ascii) (s : string)
  : option found :=
  match match_at r (mkPos before s) with
  | Some m => Some m
  | None =>
      match s with
      | String c s' => search_from r (Some c) s'
      | EmptyString => None
      end
  end.

(** [re.search(r, s)] and the [groups()] of its match. *)
Definition search (r : regex) (s : string) : option (list string) :=
  option_map groups (search_from r None s).

(** [re.findall(r, s)] for a pattern with one group: the group of every
    match, the matches found from left to right without overlap.  [skip]
    counts the characters of the last match still to pass. *)
Fixpoint findall_from (r : regex) (skip : nat) (before : option ascii)
    (s : string) : list string :=
  let next (k : nat) :=
    match s with
    | String c s' => findall_from r k (Some c) s'
    | EmptyString => []
    end in
  match skip with
  | S k => next k
  | O =>
      match match_at r (mkPos before s) with
      | Some m =>
          hd EmptyString (groups m) :: next (pred (String.length (text m)))
      | None => next O
      end
  end.

Definition findall (r : regex) (s : string) : list string :=
  findall_from r O None s.

Fixpoint alts (l : list string) : regex :=
  match l with
  | [] => Lit EmptyString
  | [x] => Lit x
  | x :: l' => Alt (Lit x) (alts l')
  end.

Definition digits (lo : nat) (hi : option nat) : regex :=
  Rep Str.is_decimal lo hi.

Definition spaces : regex := Rep Str.is_space 1 None.

End Re.

(** ** Formatting of binary64 values *)

Module Fmt.

(** The integer nearest to [num / den], ties to the even one
    ([0 <= num], [0 < den]). *)
Definition round_half_even (num den : Z) : Z :=
  let q := num / den in
  let r := num mod den in
  if 2 * r <? den then q
  else if den <? 2 * r then q + 1
  else if Z.even q then q else q + 1.

(** [m * 2^e * 10^d], rounded to an integer. *)
Definition scaled (d : nat) (m : positive) (e : Z) : Z :=
  let num := Z.pos m * 10 ^ Z.of_nat d in
  if 0 <=? e then num * 2 ^ e else round_half_even num (2 ^ (- e)).

Definition fixed (d : nat) (n : Z) : string :=
  let p := 10 ^ Z.of_nat d in
  let whole := Str.of_Z (n / p) in
  match d with
  | O => whole
  | _ =>
      let frac := Str.of_Z (n mod p) in
      whole ++ "." ++ Str.zeros (d - String.length frac) ++ frac
  end.

Definition sign (s : bool) : string := if s then "-" else "".

(** [format(x, '.<d>f')] for a float [x]. *)
Definition format_f (d : nat) (x : spec_float) : string :=
  match x with
  | S754_zero s => sign s ++ fixed d 0
  | S754_infinity s => sign s ++ "inf"
  | S754_nan => "nan"
  | S754_finite s m e => sign s ++ fixed d (scaled d m e)
  end.

End Fmt.

(** ** Data model *)

Definition dict (A : Type) : Type := list (string * A).

(** [d.get(key)] *)
Fixpoint get {A : Type} (key : string) (d : dict A) : option A :=
  match d with
  | [] => None
  | (k, v) :: d' => if String.eqb key k then Some v else get key d'
  end.

Record temporal_t : Type := mkTemporal {
  year : option Z;
  month : option Z;
  day : option Z;
  datetime : option string
}.

Record geospatial_t : Type := mkGeospatial {
  regional_seas : option (list string)
}.

Record statistics_t : Type := mkStatistics {
  stat_min : option spec_float;
  stat_max : option spec_float;
  stat_mean : option spec_float
}.

(** An absent [present] reads as false. *)
Record variable_t : Type := mkVariable {
  present : bool;
  statistics : option statistics_t
}.

Record measurements_t : Type := mkMeasurements {
  core_variables : option (dict variable_t);
  bgc_variables : option (dict variable_t)
}.

(** An absent [_is_uploaded] reads as false. *)
Record profile : Type := mkProfile {
  temporal : option temporal_t;
  geospatial : option geospatial_t;
  measurements : option measurements_t;
  _is_uploaded : bool;
  _uploaded_filename : option string
}.

Record date : Type := mkDate { d_year : Z; d_month : Z; d_day : Z }.

(** [x.get(key, {})]: an absent object reads as the empty one. *)
Definition temporal_of (p : profile) : temporal_t :=
  match temporal p with
  | Some t => t
  | None => mkTemporal None None None None
  end.

Definition geospatial_of (p : profile) : geospatial_t :=
  match geospatial p with Some g => g | None => mkGeospatial None end.

Definition measurements_of (p : profile) : measurements_t :=
  match measurements p with Some m => m | None => mkMeasurements None None end.

Definition dict_of {A : Type} (d : option (dict A)) : dict A :=
  match d with Some d => d | None => [] end.

Definition variable_of (d : dict variable_t) (name : string) : variable_t :=
  match get name d with Some v => v | None => mkVariable false None end.

Definition statistics_of (v : variable_t) : statistics_t :=
  match statistics v with
  | Some s => s
  | None => mkStatistics None None None
  end.

(** [measurements.get('core_variables', {}).get(name, {}).get('present')] *)
Definition core_present (m : measurements_t) (name : string) : bool :=
  present (variable_of (dict_of (core_variables m)) name).

Definition bgc_present (m : measurements_t) (name : string) : bool :=
  present (variable_of (dict_of (bgc_variables m)) name).

(** Truth value of an optional integer: [None] and [0] are false. *)
Definition truthy (x : option Z) : bool :=
  match x with Some n => negb (n =? 0) | None => false end.

(** [x == n] for an optional integer [x]. *)
Definition eq_int (x : option Z) (n : Z) : bool :=
  match x with Some k => k =? n | None => false end.

(** [x in l] for a list of integers. *)
Definition in_ints (x : option Z) (l : list Z) : bool :=
  existsb (eq_int x) l.

(** [str(x)] *)
Definition str_of (x : option Z) : string :=
  match x with Some n => Str.of_Z n | None => "None" end.

(** [s in l] for a list of strings. *)
Definition in_strs (s : string) (l : list string) : bool :=
  existsb (String.eqb s) l.

(** [abs(x - n) <= tol]: the subtraction from [None] is a [TypeError]. *)
Definition within (x : option Z) (n tol : Z) : result bool :=
  match x with
  | Some k => Ok (Z.abs (k - n) <=? tol)
  | None => Raise TypeError
  end.

(** [any(abs(x - n) <= tol for n in l)] *)
Fixpoint any_within (x : option Z) (tol : Z) (l : list Z) : result bool :=
  match l with
  | [] => Ok false
  | n :: l' =>
      match within x n tol with
      | Ok true => Ok true
      | Ok false => any_within x tol l'
      | Raise e => Raise e
      end
  end.

(** [any(keyword in text for keyword in keywords)] *)
Definition any_in (keywords : list string) (text : string) : bool :=
  existsb (fun keyword => Str.contains keyword text) keywords.

(** ** Temporal extraction *)

Definition months_map : dict Z :=
  [("january", 1); ("jan", 1); ("february", 2); ("feb", 2); ("march", 3);
   ("mar", 3); ("april", 4); ("apr", 4); ("may", 5); ("june", 6);
   ("jun", 6); ("july", 7); ("jul", 7); ("august", 8); ("aug", 8);
   ("september", 9); ("sep", 9); ("october", 10); ("oct", 10);
   ("november", 11); ("nov", 11); ("december", 12); ("dec", 12)].

Definition _month_to_number (month_str : string) : Z :=
  match get (Str.lower month_str) months_map with
  | Some n => n
  | None => 1
  end.

(** [(20\d{2})] *)
Definition year_group : Re.regex :=
  Re.Group (Re.Seq (Re.Lit "20") (Re.digits 2 (Some 2%nat))).

(** [\b(20\d{2})\b] *)
Definition year_pattern : Re.regex :=
  Re.Seq Re.WordB (Re.Seq year_group Re.WordB).

(** [(january|jan|...|december|dec)] *)
Definition month_group : Re.regex :=
  Re.Group (Re.alts (map fst months_map)).

(** [(\d{1,2})] *)
Definition day_group : Re.regex := Re.Group (Re.digits 1 (Some 2%nat)).

Definition pattern_day_month_year : Re.regex :=
  Re.Seq day_group (Re.Seq Re.spaces
    (Re.Seq month_group (Re.Seq Re.spaces year_group))).

Definition pattern_month_day_year : Re.regex :=
  Re.Seq month_group (Re.Seq Re.spaces
    (Re.Seq day_group (Re.Seq Re.spaces year_group))).

Definition pattern_iso : Re.regex :=
  Re.Seq year_group (Re.Seq (Re.Lit "-")
    (Re.Seq day_group (Re.Seq (Re.Lit "-") day_group))).

Definition date_patterns : list Re.regex :=
  [pattern_day_month_year; pattern_month_day_year; pattern_iso].

(** [last\s+(\d+)\s+months?] *)
Definition last_months_pattern : Re.regex :=
  Re.Seq (Re.Lit "last") (Re.Seq Re.spaces
    (Re.Seq (Re.Group (Re.digits 1 None)) (Re.Seq Re.spaces
      (Re.Seq (Re.Lit "month") (Re.Opt (Re.Lit "s")))))).

Definition group (groups : list string) (i : nat) : string :=
  nth i groups EmptyString.

(** The body of [if len(groups) == 3]: the roles of the three groups. *)
Definition date_of_groups (groups : list string) : result date :=
  (if Str.isdigit (group groups 0)
      && (String.length (group groups 0) =? 4)%nat
   then
     let* year := Str.int (group groups 0) in
     let* month := Str.int (group groups 1) in
     let* day := Str.int (group groups 2) in
     Ok (mkDate year month day)
   else if Str.startswith "20" (group groups 2)
   then
     let* day := Str.int (group groups 0) in
     let month_str := group groups 1 in
     let* year := Str.int (group groups 2) in
     let month := _month_to_number month_str in
     Ok (mkDate year month day)
   else
     let month_str := group groups 0 in
     let* day := Str.int (group groups 1) in
     let* year := Str.int (group groups 2) in
     let month := _month_to_number month_str in
     Ok (mkDate year month day))%result.

(** The loop over [date_patterns]: the first pattern that matches
    decides. *)
Fixpoint find_specific_date (patterns : list Re.regex) (query_lower : string)
  : result (option date) :=
  match patterns with
  | [] => Ok None
  | pattern :: patterns' =>
      match Re.search pattern query_lower with
      | Some groups =>
          if (List.length groups =? 3)%nat
          then (let* d := date_of_groups groups in Ok (Some d))%result
          else find_specific_date patterns' query_lower
      | None => find_specific_date patterns' query_lower
      end
  end.

Definition specific_date_of (query : string) : result (option date) :=
  find_specific_date date_patterns (Str.lower query).

Definition years_of (query : string) : list string :=
  Re.findall year_pattern query.

(** The months named in the query, in the order of [months_map]. *)
Definition months_named (query_lower : string) : list Z :=
  flat_map (fun '(month_name, month_num) =>
              if Str.contains month_name query_lower then [month_num] else [])
           months_map.

(** [list(range(lo, 13))] *)
Definition range_to_13 (lo : Z) : list Z :=
  map (fun i => lo + Z.of_nat i) (seq 0 (Z.to_nat (13 - lo))).

(** [months_in_query] once the "last N months" rule has been applied. *)
Definition months_of (query_lower : string) (years_in_query : list string)
    (specific_date : option date) : result (list Z) :=
  let months_in_query :=
    match specific_date with
    | Some _ => []
    | None => months_named query_lower
    end in
  match Re.search last_months_pattern query_lower with
  | Some groups =>
      (let* num_months := Str.int (group groups 0) in
       match years_in_query with
       | [] => Ok months_in_query
       | _ => Ok (range_to_13 (Z.max 1 (13 - num_months)))
       end)%result
  | None => Ok months_in_query
  end.

Definition generic_keywords : list string :=
  ["summary"; "overview"; "tell me about"; "show me"; "uploaded";
   "this file"; "analyze"; "what is"].

(** What the query asks for. *)
Record intent : Type := mkIntent {
  query_lower : string;
  years_in_query : list string;
  months_in_query : list Z;
  specific_date : option date;
  is_generic_query : bool
}.

Definition extract (query : string) : result intent :=
  (let query_lower := Str.lower query in
   let years_in_query := years_of query in
   let* specific_date := specific_date_of query in
   let* months_in_query :=
     months_of query_lower years_in_query specific_date in
   Ok (mkIntent query_lower years_in_query months_in_query specific_date
         (any_in generic_keywords query_lower)))%result.

(** ** Scoring *)

Definition bonus (b : bool) (n : Z) : Z := if b then n else 0.

(** [region.lower().replace('_', ' ')] *)
Definition region_clean (region : string) : string :=
  Str.replace_char "_" " " (Str.lower region).

(** The loop over the regions of a profile: [weight] for every region
    that the query names. *)
Definition region_score (weight : Z) (query_lower : string)
    (regions : list string) : Z :=
  fold_left (fun relevance_score region =>
               relevance_score
               + bonus (Str.contains (region_clean region) query_lower) weight)
            regions 0.

Definition regions_of (spatial : geospatial_t) : list string :=
  match regional_seas spatial with Some l => l | None => [] end.

Section Strict.

Variable i : intent.

(** The tier of the specific date. *)
Definition strict_date_score (sd : date) (temporal : temporal_t) : Z :=
  let profile_day := day temporal in
  if eq_int (year temporal) (d_year sd) && eq_int (month temporal) (d_month sd)
  then
    if eq_int profile_day (d_day sd) then 20
    else
      match profile_day with
      | Some n =>
          if truthy profile_day && (Z.abs (n - d_day sd) <=? 3) then 15
          else if truthy profile_day && (Z.abs (n - d_day sd) <=? 7) then 10
          else 8
      | None => 8
      end
  else 0.

(** The tier of the years and months. *)
Definition strict_year_score (temporal : temporal_t) : result Z :=
  let profile_month := month temporal in
  if in_strs (str_of (year temporal)) (years_in_query i)
  then
    match months_in_query i with
    | [] => Ok (10 + 5)
    | _ =>
        if in_ints profile_month (months_in_query i) then Ok (10 + 8)
        else
          (let* near := any_within profile_month 1 (months_in_query i) in
           Ok (10 + bonus near 5))%result
    end
  else Ok 0.

Definition strict_temporal_score (temporal : temporal_t) : result Z :=
  match specific_date i with
  | Some sd => Ok (strict_date_score sd temporal)
  | None =>
      match years_in_query i with
      | [] => Ok 0
      | _ => strict_year_score temporal
      end
  end.

(** The tier of the parameter keywords. *)
Definition strict_parameter_score (measurements : measurements_t) : Z :=
  let q := query_lower i in
  bonus ((Str.contains "temperature" q || Str.contains "temp" q)
         && core_present measurements "TEMP") 3
  + bonus ((Str.contains "salinity" q || Str.contains "salt" q
            || Str.contains "psal" q)
           && core_present measurements "PSAL") 3
  + bonus ((Str.contains "oxygen" q || Str.contains "doxy" q)
           && core_present measurements "DOXY") 3
  + bonus ((Str.contains "chlorophyll" q || Str.contains "chla" q)
           && bgc_present measurements "CHLA") 3
  + bonus ((Str.contains "pressure" q || Str.contains "depth" q
            || Str.contains "pres" q)
           && core_present measurements "PRES") 3.

(** The body of the [try] of [search_relevant_data]: the value of
    [relevance_score] at its end, or the exception that leaves it. *)
Definition strict_score (p : profile) : result Z :=
  (let temporal := temporal_of p in
   let spatial := geospatial_of p in
   let measurements := measurements_of p in
   let uploaded := bonus (is_generic_query i && _is_uploaded p) 10 in
   let* time := strict_temporal_score temporal in
   let relevance_score :=
     uploaded + time
     + region_score 5 (query_lower i) (regions_of spatial)
     + strict_parameter_score measurements in
   if relevance_score =? 0
   then Ok (bonus (core_present measurements "TEMP") 1)
   else Ok relevance_score)%result.

End Strict.

Section Flexible.

Variables (query_lower : string) (years : list string) (months : list Z)
          (specific_date : option date).

Definition flexible_date_score (sd : date) (temporal : temporal_t) : Z :=
  let profile_month := month temporal in
  let profile_day := day temporal in
  if eq_int (year temporal) (d_year sd)
  then
    6 +
    (if eq_int profile_month (d_month sd)
     then
       8 + match profile_day with
           | Some n =>
               bonus (truthy profile_day && (Z.abs (n - d_day sd) <=? 14)) 10
           | None => 0
           end
     else
       match profile_month with
       | Some n =>
           bonus (truthy profile_month && (Z.abs (n - d_month sd) <=? 1)) 4
       | None => 0
       end)
  else 0.

(** [[int(y) for y in years]] *)
Fixpoint target_years_of (years : list string) : result (list Z) :=
  match years with
  | [] => Ok []
  | y :: years' =>
      (let* n := Str.int y in
       let* l := target_years_of years' in
       Ok (n :: l))%result
  end.

Definition flexible_year_score (temporal : temporal_t) : result Z :=
  (let* target_years := target_years_of years in
   let profile_year := year temporal in
   if in_ints profile_year target_years then Ok 8
   else
     let* near := any_within profile_year 1 target_years in
     Ok (bonus near 4))%result.

Definition flexible_month_score (temporal : temporal_t) : result Z :=
  let profile_month := month temporal in
  match months with
  | [] => Ok 0
  | _ =>
      if in_ints profile_month months then Ok 6
      else
        (let* near := any_within profile_month 2 months in
         Ok (bonus near 3))%result
  end.

Definition flexible_parameter_score (measurements : measurements_t) : Z :=
  if Str.contains "temperature" query_lower
     || Str.contains "salinity" query_lower
     || Str.contains "analysis" query_lower
  then bonus (core_present measurements "TEMP") 2
       + bonus (core_present measurements "PSAL") 2
  else 0.

(** The body of the [try] of [search_relevant_data_flexible]. *)
Definition flexible_score (p : profile) : result Z :=
  (let temporal := temporal_of p in
   let spatial := geospatial_of p in
   let measurements := measurements_of p in
   let* time :=
     match specific_date with
     | Some sd => Ok (flexible_date_score sd temporal)
     | None =>
         match years with
         | [] => Ok 0
         | _ => flexible_year_score temporal
         end
     end in
   let* months_score := flexible_month_score temporal in
   Ok (time + months_score
       + region_score 4 query_lower (regions_of spatial)
       + flexible_parameter_score measurements))%result.

End Flexible.

(** ** Ranking *)

Definition scored : Type := (profile * Z)%type.

(** One turn of the loop over [argo_data]: a profile whose scoring raises
    is passed over, one with a positive score is appended. *)
Definition keep (score : profile -> result Z) (p : profile) : list scored :=
  match score p with
  | Ok relevance_score =>
      if relevance_score >? 0 then [(p, relevance_score)] else []
  | Raise _ => []
  end.

Definition score_all (score : profile -> result Z) (argo_data : list profile)
  : list scored :=
  flat_map (keep score) argo_data.

(** [sorted(l)] for an order [lt]: the sort is stable, so an element goes
    in front of the later ones that it is not above. *)
Section Sorted.

Context {A : Type} (lt : A -> A -> bool).

Fixpoint insert (x : A) (l : list A) : list A :=
  match l with
  | [] => [x]
  | y :: l' => if lt y x then y :: insert x l' else x :: l
  end.

Fixpoint sorted (l : list A) : list A :=
  match l with
  | [] => []
  | x :: l' => insert x (sorted l')
  end.

End Sorted.

(** The order of [key=lambda x: x[1], reverse=True]: the higher score
    first. *)
Definition higher (a b : scored) : bool := snd b <? snd a.

(** [relevant_profiles.sort(key=lambda x: x[1], reverse=True)] *)
Definition sort (relevant_profiles : list scored) : list scored :=
  sorted higher relevant_profiles.

(** [[profile[0] for profile in relevant_profiles[:15]]] *)
Definition top15 (relevant_profiles : list scored) : list profile :=
  map fst (firstn 15 relevant_profiles).

Definition rank (score : profile -> result Z) (argo_data : list profile)
  : list scored :=
  sort (score_all score argo_data).

(** ** Search *)

(** The notices shown with [st.info]. *)
Inductive notice : Type :=
| NoExactDate (d : date)
| Expanding.

(** A computation that may show notices and may raise. *)
Definition ui (A : Type) : Type := list notice -> result A * list notice.

Definition ret {A : Type} (a : A) : ui A := fun log => (Ok a, log).

Definition raise {A : Type} (e : exn) : ui A := fun log => (Raise e, log).

Definition bind {A B : Type} (c : ui A) (k : A -> ui B) : ui B :=
  fun log =>
    match c log with
    | (Ok a, log') => k a log'
    | (Raise e, log') => (Raise e, log')
    end.

Definition info (n : notice) : ui unit := fun log => (Ok tt, (log ++ [n])%list).

Definition lift {A : Type} (c : result A) : ui A :=
  match c with Ok a => ret a | Raise e => raise e end.

Declare Scope ui_scope.
Delimit Scope ui_scope with ui.
Notation "x <- c ;; k" := (bind c (fun x => k))
  (at level 61, c at next level, right associativity) : ui_scope.
Notation "c ;; k" := (bind c (fun _ => k))
  (at level 61, right associativity) : ui_scope.

Definition nonempty {A : Type} (l : list A) : bool :=
  match l with [] => false | _ => true end.

Definition is_some {A : Type} (o : option A) : bool :=
  match o with Some _ => true | None => false end.

Definition search_relevant_data_flexible (query : string)
    (argo_data : list profile) (years : list string) (months : list Z)
    (specific_date : option date) : ui (list profile) :=
  let query_lower := Str.lower query in
  ret (top15 (rank (flexible_score query_lower years months specific_date)
                   argo_data)).

(** The test of line 1016. *)
Definition escalates (i : intent) (relevant_profiles : list scored) : bool :=
  negb (nonempty relevant_profiles)
  && (nonempty (years_in_query i) || nonempty (months_in_query i)
      || is_some (specific_date i)).

Definition search_relevant_data (query : string) (argo_data : list profile)
  : ui (list profile) :=
  (i <- lift (extract query) ;;
   let relevant_profiles := rank (strict_score i) argo_data in
   if escalates i relevant_profiles
   then
     match specific_date i with
     | Some sd => info (NoExactDate sd)
     | None => info Expanding
     end ;;
     search_relevant_data_flexible query argo_data (years_in_query i)
       (months_in_query i) (specific_date i)
   else ret (top15 relevant_profiles))%ui.

(** ** Context summary *)

Definition sentinel : string :=
  "No relevant data found in the specified time period.".

(** [d[key].append(p)], the key entered with an empty list when it is
    new. *)
Fixpoint group_add {K : Type} (eqb : K -> K -> bool) (key : K) (p : profile)
    (d : list (K * list profile)) : list (K * list profile) :=
  match d with
  | [] => [(key, [p])]
  | (k, ps) :: d' =>
      if eqb key k then (k, (ps ++ [p])%list) :: d'
      else (k, ps) :: group_add eqb key p d'
  end.

(** [f"{year}-{month:02d}"] *)
Definition time_key (year month : Z) : string :=
  Str.of_Z year ++ "-" ++ Str.format_02d month.

(** The dictionary [profiles_by_time]. *)
Definition group_by_time (profiles : list profile)
  : list (string * list profile) :=
  fold_left (fun profiles_by_time p =>
               let year := year (temporal_of p) in
               let month := month (temporal_of p) in
               match year, month with
               | Some y, Some m =>
                   if truthy year && truthy month
                   then group_add String.eqb (time_key y m) p profiles_by_time
                   else profiles_by_time
               | _, _ => profiles_by_time
               end)
            profiles [].

Definition temporal_range (profiles : list profile) : list string :=
  let profiles_by_time := group_by_time profiles in
  if (1 <? List.length profiles_by_time)%nat
  then
    let time_keys := sorted String.ltb (map fst profiles_by_time) in
    ["TEMPORAL RANGE: " ++ hd "" time_keys ++ " to " ++ last time_keys ""
     ++ " (" ++ Str.of_Z (Z.of_nat (List.length profiles)) ++ " profiles)"]
  else [].

Definition eq_year (a b : option Z) : bool :=
  match a, b with
  | Some x, Some y => x =? y
  | None, None => true
  | _, _ => false
  end.

(** The dictionary [profiles_by_year]. *)
Definition group_by_year (years_in_query : list string)
    (profiles : list profile) : list (option Z * list profile) :=
  fold_left (fun profiles_by_year p =>
               let year := year (temporal_of p) in
               if in_strs (str_of year) years_in_query
               then group_add eq_year year p profiles_by_year
               else profiles_by_year)
            profiles [].

Definition lt_year (a b : option Z) : bool :=
  match a, b with
  | Some x, Some y => x <? y
  | _, _ => false
  end.

(** [sorted(profiles_by_year.keys())]: [None] does not compare with an
    integer. *)
Definition sorted_years (keys : list (option Z)) : result (list (option Z)) :=
  if forallb is_some keys || (List.length keys <=? 1)%nat
  then Ok (sorted lt_year keys)
  else Raise TypeError.

Definition degree : string := String (ascii_of_N 176) "C".

Definition stat (x : option spec_float) : string :=
  match x with
  | Some v => Fmt.format_f 2 v
  | None => "0.00"
  end.

Definition temp_part (core_vars : dict variable_t) : string :=
  let temp_data := variable_of core_vars "TEMP" in
  if present temp_data
  then
    let stats := statistics_of temp_data in
    " | TEMP: " ++ stat (stat_min stats) ++ "-" ++ stat (stat_max stats)
    ++ degree ++ " (mean: " ++ stat (stat_mean stats) ++ degree ++ ")"
  else "".

Definition sal_part (core_vars : dict variable_t) : string :=
  let sal_data := variable_of core_vars "PSAL" in
  if present sal_data
  then
    let stats := statistics_of sal_data in
    " | SAL: " ++ stat (stat_min stats) ++ "-" ++ stat (stat_max stats)
    ++ " PSU (mean: " ++ stat (stat_mean stats) ++ " PSU)"
  else "".

Definition depth_part (core_vars : dict variable_t) : string :=
  let pres_data := variable_of core_vars "PRES" in
  if present pres_data
  then
    let stats := statistics_of pres_data in
    " | DEPTH: 0-"
    ++ match stat_max stats with
       | Some v => Fmt.format_f 0 v
       | None => "0"
       end
    ++ "m"
  else "".

(** [temporal.get('datetime', 'unknown')[:10]] *)
Definition date_of (temporal : temporal_t) : string :=
  Str.take 10 match datetime temporal with Some s => s | None => "unknown" end.

(** [', '.join(spatial.get('regional_seas', ['Ocean']))] *)
Definition regions_text (spatial : geospatial_t) : string :=
  Str.join ", "
    match regional_seas spatial with Some l => l | None => ["Ocean"] end.

Definition file_part (p : profile) : string :=
  match _uploaded_filename p with
  | Some name =>
      match name with
      | EmptyString => ""
      | _ => " (File: " ++ name ++ ")"
      end
  | None => ""
  end.

Definition when (b : bool) (s : string) : string := if b then s else "".

(** One segment of a comparison. *)
Definition comparison_info (query_lower : string) (is_summary : bool)
    (year : option Z) (p : profile) : string :=
  let temporal := temporal_of p in
  let spatial := geospatial_of p in
  let measurements := measurements_of p in
  let core_vars := dict_of (core_variables measurements) in
  "REAL DATA [" ++ str_of year ++ "] - Profile " ++ date_of temporal
  ++ " from " ++ regions_text spatial
  ++ file_part p
  ++ when (Str.contains "temperature" query_lower
           || Str.contains "temp" query_lower || is_summary)
       (temp_part core_vars)
  ++ when (Str.contains "salinity" query_lower
           || Str.contains "salt" query_lower || is_summary)
       (sal_part core_vars)
  ++ when is_summary (depth_part core_vars).

(** [format(x, '02d')]: [None] has no such format. *)
Definition format_02d_of (x : option Z) : result string :=
  match x with
  | Some n => Ok (Str.format_02d n)
  | None => Raise TypeError
  end.

(** One segment outside a comparison. *)
Definition profile_info (p : profile) : result string :=
  (let temporal := temporal_of p in
   let spatial := geospatial_of p in
   let measurements := measurements_of p in
   let* mm := format_02d_of (month temporal) in
   let* dd := format_02d_of (day temporal) in
   let core_vars := dict_of (core_variables measurements) in
   Ok ("REAL DATA [" ++ str_of (year temporal) ++ "-" ++ mm ++ "-" ++ dd
       ++ "] - Profile " ++ date_of temporal
       ++ " from " ++ regions_text spatial
       ++ file_part p
       ++ temp_part core_vars ++ sal_part core_vars
       ++ depth_part core_vars))%result.

Fixpoint map_result {A B : Type} (f : A -> result B) (l : list A)
  : result (list B) :=
  match l with
  | [] => Ok []
  | x :: l' =>
      (let* y := f x in
       let* ys := map_result f l' in
       Ok (y :: ys))%result
  end.

Definition summary_keywords : list string :=
  ["summary"; "overview"; "tell me"; "analyze"; "analysis"].

Definition comparison_keywords : list string :=
  ["compare"; "difference"; "vs"; "versus"].

Definition profiles_of {K : Type} (eqb : K -> K -> bool) (key : K)
    (d : list (K * list profile)) : list profile :=
  match find (fun e => eqb key (fst e)) d with
  | Some (_, ps) => ps
  | None => []
  end.

Definition create_context_summary (profiles : list profile) (query : string)
  : result string :=
  match profiles with
  | [] => Ok sentinel
  | _ =>
      (let query_lower := Str.lower query in
       let range := temporal_range profiles in
       let years_in_query := years_of query in
       let is_summary := any_in summary_keywords query_lower in
       let is_comparison := any_in comparison_keywords query_lower in
       let* parts :=
         if is_comparison && nonempty years_in_query
         then
           let profiles_by_year := group_by_year years_in_query profiles in
           let* keys := sorted_years (map fst profiles_by_year) in
           Ok (flat_map
                 (fun year =>
                    map (comparison_info query_lower is_summary year)
                        (firstn 3 (profiles_of eq_year year profiles_by_year)))
                 keys)
         else map_result profile_info (firstn 10 profiles) in
       Ok (Str.join " || " (range ++ parts)%list))%result
  end.

(** ** Requests *)

(** The tags that [main] puts on the profile converted from an uploaded
    file (the time of the upload, which nothing reads here, is left
    out). *)
Definition tag_uploaded (name : string) (converted_data : profile) : profile :=
  mkProfile (temporal converted_data) (geospatial converted_data)
    (measurements converted_data) true (Some name).

(** What [convert_nc_to_json] gives for an uploaded file: the profile, a
    false value, or an exception. *)
Inductive conversion : Type :=
| Converted (converted_data : profile)
| Nothing
| Failed.

(** [f.get('_uploaded_filename') == name] *)
Definition has_filename (name : string) (f : profile) : bool :=
  match _uploaded_filename f with
  | Some n => String.eqb n name
  | None => false
  end.

(** [uploaded_file.name not in [f.get('_uploaded_filename') for f in
    uploaded_files]] *)
Definition is_new_file (name : string) (uploaded_files : list profile)
  : bool :=
  negb (existsb (has_filename name) uploaded_files).

(** [main], lines 1284 to 1296: the uploaded files and the active file
    after the upload of the file [name]. *)
Definition upload (name : string) (c : conversion)
    (uploaded_files : list profile) (active_file : option string)
  : list profile * option string :=
  if is_new_file name uploaded_files
  then
    match c with
    | Converted converted_data =>
        ((uploaded_files ++ [tag_uploaded name converted_data])%list,
         Some name)
    | Nothing | Failed => (uploaded_files, active_file)
    end
  else (uploaded_files, active_file).

(** The search and the summary of its result, on all the data. *)
Definition search_and_summarize (last_user_message : string)
    (argo_data : list profile) : ui (list profile * string) :=
  (relevant_profiles <- search_relevant_data last_user_message argo_data ;;
   context <- lift (create_context_summary relevant_profiles
                      last_user_message) ;;
   ret (relevant_profiles, context))%ui.

(** [main], lines 1385 to 1402: the profiles and the context for the last
    message of the user.  With an active file that has uploaded data, only
    that data is searched. *)
Definition build_context (active_file : option string)
    (uploaded_files argo_data : list profile) (last_user_message : string)
  : ui (list profile * string) :=
  match active_file with
  | Some (String _ _ as name) =>
      let active_file_data := filter (has_filename name) uploaded_files in
      if nonempty active_file_data
      then
        (relevant_profiles <-
           search_relevant_data last_user_message active_file_data ;;
         if nonempty relevant_profiles
         then
           context <- lift (create_context_summary relevant_profiles
                              last_user_message) ;;
           ret (relevant_profiles, "Data from '" ++ name ++ "': " ++ context)
         else ret ([], "No data matching query in '" ++ name ++ "'"))%ui
      else search_and_summarize last_user_message argo_data
  | _ => search_and_summarize last_user_message argo_data
  end.



(** The lines of the source data of a profile. *)
Inductive caption : Type :=
| Heading (i : nat)
| DateLine (date : string)
| RegionLine (regions : string)
| FileLine (name : string)
| TempLine (range : string)
| SalLine (range : string).

(** [meas[name]['statistics']], for a variable that is present: a
    [KeyError] ([None]) without statistics. *)
Definition statistics_item (meas : dict variable_t) (name : string)
  : option statistics_t :=
  statistics (variable_of meas name).

Definition range_text (stats : statistics_t) : string :=
  stat (stat_min stats) ++ "-" ++ stat (stat_max stats).

(** The caption of a variable that is present, and whether its
    statistics are there ([false]: [meas[name]['statistics']] raises a
    [KeyError]). *)
Definition variable_caption (meas : dict variable_t) (name : string)
    (line : statistics_t -> caption) : list caption * bool :=
  if present (variable_of meas name)
  then
    match statistics_item meas name with
    | Some stats => ([line stats], true)
    | None => ([], false)
    end
  else ([], true).

(** The captions of one profile, and whether the turn ends ([false]: a
    [KeyError] leaves it, after the captions). *)
Definition profile_captions (i : nat) (p : profile) : list caption * bool :=
  let temporal := temporal_of p in
  let spatial := geospatial_of p in
  let meas := dict_of (core_variables (measurements_of p)) in
  let head :=
    ([Heading i;
      DateLine (Str.take 10 match datetime temporal with
                            | Some s => s
                            | None => ""
                            end);
      RegionLine (Str.join ", " match regional_seas spatial with
                                | Some l => l
                                | None => ["Unknown"]
                                end)]
     ++ match _uploaded_filename p with
        | Some (String _ _ as name) => [FileLine name]
        | _ => []
        end)%list in
  let temp :=
    variable_caption meas "TEMP"
      (fun temp_stats => TempLine (range_text temp_stats ++ degree)) in
  let sal :=
    variable_caption meas "PSAL"
      (fun sal_stats => SalLine (range_text sal_stats ++ " PSU")) in
  if snd temp
  then ((head ++ fst temp ++ fst sal)%list, snd sal)
  else (head, false).

(** The loop of "View source data" from the profile number [i]: the
    captions shown, and whether it ends. *)
Fixpoint source_captions (i : nat) (relevant_profiles : list profile)
  : list caption * bool :=
  match relevant_profiles with
  | [] => ([], true)
  | p :: rest =>
      let (shown, ok) := profile_captions i p in
      if ok
      then let (more, ok') := source_captions (S i) rest in
           ((shown ++ more)%list, ok')
      else (shown, false)
  end.

(** [main], lines 1446 to 1465. *)
Definition view_source_data (relevant_profiles : list profile)
  : list caption * bool :=
  source_captions 1 relevant_profiles.

(** * Vocabulary of the properties *)

(** ** Rankings *)

(** [a] may stand before [b]: its score is not lower. *)
Definition score_ge (a b : scored) : Prop := snd b <= snd a.

Definition has_score (s : Z) (e : scored) : bool := snd e =? s.

(** [score] gives [p] the score [s]. *)
Definition scores_as (score : profile -> result Z) (s : Z) (p : profile)
  : bool :=
  match score p with
  | Ok s' => s' =? s
  | Raise _ => false
  end.

(** [out] is a ranking of [argo_data] by [score]: the profiles of at most
    15 entries [ranked], each a profile of [argo_data] with its positive
    score, the scores never going up, and the entries of every score
    being the profiles of [argo_data] with that score, in their order. *)
Definition ranked_by (score : profile -> result Z)
    (argo_data out : list profile) : Prop :=
  exists ranked : list scored,
    out = map fst (firstn 15 ranked)
    /\ (List.length out <= 15)%nat
    /\ Forall (fun e => In (fst e) argo_data
                        /\ score (fst e) = Ok (snd e) /\ 0 < snd e) ranked
    /\ StronglySorted score_ge ranked
    /\ (forall s, 0 < s ->
          map fst (filter (has_score s) ranked)
          = filter (scores_as score s) argo_data).

(** No profile has a positive score. *)
Definition none_positive (score : profile -> result Z)
    (argo_data : list profile) : Prop :=
  forall p s, In p argo_data -> score p = Ok s -> s <= 0.

(** ** Queries *)

(** The query carries a specific date, a year or a month. *)
Definition temporal_signal (i : intent) : Prop :=
  specific_date i <> None \/ years_in_query i <> []
  \/ months_in_query i <> [].

(** The notice that goes with the relaxed search. *)
Definition fallback_notice (i : intent) : notice :=
  match specific_date i with
  | Some sd => NoExactDate sd
  | None => Expanding
  end.

(** How many times [m] is in [l]. *)
Definition occurrences (m : Z) (l : list Z) : nat := count_occ Z.eq_dec l m.

(** ** Profiles *)

(** The profiles that the strict scorer passes over: the year is one of
    the query, the query names months, and the profile has no month. *)
Definition skipped_by_strict (i : intent) (p : profile) : Prop :=
  specific_date i = None
  /\ in_strs (str_of (year (temporal_of p))) (years_in_query i) = true
  /\ months_in_query i <> []
  /\ month (temporal_of p) = None.

(** The profile [p] with [y] for its year. *)
Definition with_year (y : Z) (p : profile) : profile :=
  let t := temporal_of p in
  mkProfile (Some (mkTemporal (Some y) (month t) (day t) (datetime t)))
    (geospatial p) (measurements p) (_is_uploaded p) (_uploaded_filename p).

(** ** Summaries *)

Definition first_char (s : string) : option ascii :=
  match s with
  | String c _ => Some c
  | EmptyString => None
  end.

(** ** Example data *)

Definition temp_only : measurements_t :=
  mkMeasurements (Some [("TEMP", mkVariable true None)]) None.

(** A profile of 2023 with a temperature and neither month nor day. *)
Definition profile_without_month : profile :=
  mkProfile (Some (mkTemporal (Some 2023) None None None)) None
    (Some temp_only) false None.

(** A profile of August 2022, with a temperature. *)
Definition profile_august_2022 : profile :=
  mkProfile (Some (mkTemporal (Some 2022) (Some 8) (Some 10)
                     (Some "2022-08-10T06:30:00Z")))
    (Some (mkGeospatial (Some ["Bay_of_Bengal"]))) (Some temp_only)
    false None.

(** A profile of August 2020, with no measurement. *)
Definition profile_august_2020 : profile :=
  mkProfile (Some (mkTemporal (Some 2020) (Some 8) (Some 1) None))
    None None false None.

(** The profile of the scenario of the specification: 10 August 2023, Bay
    of Bengal, temperature from 22 to 29 (mean 25.5), salinity from 34 to
    36 (mean 35.1, the binary64 value nearest to it). *)
Definition profile_bay_of_bengal : profile :=
  let float (m e : Z) := Some (S754_finite false (Z.to_pos m) e) in
  mkProfile
    (Some (mkTemporal (Some 2023) (Some 8) (Some 10)
             (Some "2023-08-10T00:00:00Z")))
    (Some (mkGeospatial (Some ["Bay of Bengal"])))
    (Some (mkMeasurements
             (Some [("TEMP",
                     mkVariable true
                       (Some (mkStatistics (float 22 0) (float 29 0)
                                (float 51 (-1)))));
                    ("PSAL",
                     mkVariable true
                       (Some (mkStatistics (float 34 0) (float 36 0)
                                (float 4939885841272013 (-47)))))])
             None))
    false None.

(** Two files uploaded under different names. *)
Definition uploaded_pair : list profile :=
  [tag_uploaded "argo_a.nc" profile_august_2020;
   tag_uploaded "argo_b.nc" profile_bay_of_bengal].

(** The intent of the query "Salinity in August". *)
Definition intent_salinity_august : intent :=
  mkIntent "salinity in august" [] [8; 8] None false.

(** The intent of the query "august 2023". *)
Definition intent_august_2023 : intent :=
  mkIntent "august 2023" ["2023"] [8; 8] None false.

(** ** Further vocabulary *)

(** A run of decimal digits. *)
Definition is_number (s : string) : bool := Str.forallb Str.is_decimal s.

(** A year of the century: "20" and two digits. *)
Definition is_year_text (s : string) : Prop :=
  exists t, s = "20" ++ t /\ is_number t = true /\ String.length t = 2%nat.

(** One or two digits. *)
Definition is_day_text (s : string) : Prop :=
  is_number s = true /\ (1 <= String.length s <= 2)%nat.

Definition date_in_range (d : date) : Prop :=
  2000 <= d_year d <= 2099 /\ 0 <= d_month d <= 99 /\ 0 <= d_day d <= 99.

(** Some match of [r] in the subject [pre ++ s] starts inside [pre]. *)
Definition starts_before (r : Re.regex) (pre s : string) : Prop :=
  exists p1 c p2 b,
    pre = p1 ++ String c p2
    /\ Re.match_at r (Re.mkPos b (String c (p2 ++ s))) <> None.

(** The groups of a date with the day first, read as a date: day, month
    name, year. *)
Definition day_first_reading (g : list string) (dt : date) : Prop :=
  exists d name y,
    g = [d; name; y]
    /\ Str.int d = Ok (d_day dt)
    /\ _month_to_number name = d_month dt
    /\ Str.int y = Ok (d_year dt).

(** The groups of an ISO date, read as a date: year, month, day. *)
Definition iso_reading (g : list string) (dt : date) : Prop :=
  exists y m d,
    g = [y; m; d]
    /\ Str.int y = Ok (d_year dt)
    /\ Str.int m = Ok (d_month dt)
    /\ Str.int d = Ok (d_day dt).

(** The first date of the query is written with the month first. *)
Definition month_first (query : string) : Prop :=
  Re.search pattern_day_month_year (Str.lower query) = None
  /\ Re.search pattern_month_day_year (Str.lower query) <> None.

(** The query has the words "last N months" with N written in more
    digits than [int] converts. *)
Definition long_count (query : string) : Prop :=
  exists g,
    Re.search last_months_pattern (Str.lower query) = Some g
    /\ Str.max_str_digits < Z.of_nat (String.length (group g 0)).

(** The profiles that the relaxed scorer passes over. *)
Definition skipped_by_flexible (years : list string) (months : list Z)
    (specific_date : option date) (p : profile) : Prop :=
  (specific_date = None /\ years <> [] /\ year (temporal_of p) = None)
  \/ (months <> [] /\ month (temporal_of p) = None).


(** The tier of the date and years of the relaxed scorer. *)
Definition flexible_temporal_score (years : list string)
    (specific_date : option date) (temporal : temporal_t) : result Z :=
  match specific_date with
  | Some sd => Ok (flexible_date_score sd temporal)
  | None =>
      match years with
      | [] => Ok 0
      | _ => flexible_year_score years temporal
      end
  end.

(** The profile has no month or no day. *)
Definition lacks_date (p : profile) : bool :=
  negb (is_some (month (temporal_of p)))
  || negb (is_some (day (temporal_of p))).

(** The query asks for a comparison of years. *)
Definition is_comparison (query : string) : bool :=
  any_in comparison_keywords (Str.lower query) && nonempty (years_of query).

Definition filenames (files : list profile) : list (option string) :=
  map _uploaded_filename files.

(** The uploaded files are tagged, under names that are all different. *)
Definition well_tagged (files : list profile) : Prop :=
  NoDup (filenames files)
  /\ Forall (fun f => _is_uploaded f = true
                      /\ exists name, _uploaded_filename f = Some name) files.

(** A variable that is present has statistics. *)
Definition has_statistics (name : string) (p : profile) : bool :=
  let v := variable_of (dict_of (core_variables (measurements_of p))) name in
  negb (present v) || is_some (statistics v).




(** * Properties *)

(** ** The scenario of the specification *)

Example format_mean_temperature :
  Fmt.format_f 2 (S754_finite false 6839841934068941 (-48)) = "24.30".
Proof. reflexivity. Qed.

Example format_ties_to_even :
  Fmt.format_f 2 (S754_finite false 1 (-3)) = "0.12"
  /\ Fmt.format_f 0 (S754_finite false 5 (-1)) = "2"
  /\ Fmt.format_f 0 (S754_finite false 3 (-1)) = "2".
Proof. repeat split. Qed.

Example years_of_query :
  years_of "2021 vs 20222, x2020 or 2023" = ["2021"; "2023"].
Proof. reflexivity. Qed.

Example search_bay_of_bengal :
  search_relevant_data "temperature in Bay of Bengal August 2023"
    [profile_august_2022; profile_bay_of_bengal] []
  = (Ok [profile_bay_of_bengal; profile_august_2022], []).
Proof. vm_compute. reflexivity. Qed.

Example summary_bay_of_bengal :
  create_context_summary [profile_bay_of_bengal]
    "temperature in Bay of Bengal August 2023"
  = Ok ("REAL DATA [2023-08-10] - Profile 2023-08-10 from Bay of Bengal"
        ++ " | TEMP: 22.00-29.00" ++ degree ++ " (mean: 25.50" ++ degree
        ++ ") | SAL: 34.00-36.00 PSU (mean: 35.10 PSU)").
Proof. vm_compute. reflexivity. Qed.

(** ** Results *)

Lemma rbind_ok {A B : Type} (c : result A) (k : A -> result B) (b : B) :
  rbind c k = Ok b -> exists a, c = Ok a /\ k a = Ok b.
Proof.
  destruct c as [a | e]; simpl; intros H.
  - exists a. split; [reflexivity | exact H].
  - discriminate H.
Qed.

(** [bind_ok H as a Ha]: from [H], a bind that is [Ok], the value [a] of
    its first part, with [Ha], and [H] for what follows. *)
Tactic Notation "bind_ok" hyp(H) "as"
    simple_intropattern(a) simple_intropattern(Ha) :=
  apply rbind_ok in H; destruct H as [a [Ha H]].

(** ** Strings *)

Lemma lower_app (a b : string) :
  Str.lower (a ++ b) = Str.lower a ++ Str.lower b.
Proof.
  induction a as [| c a IH]; simpl; [reflexivity | rewrite IH; reflexivity].
Qed.

Lemma startswith_app (a b s : string) :
  Str.startswith (a ++ b) s = true -> Str.startswith a s = true.
Proof.
  revert s. induction a as [| c a IH]; simpl; intros s H; [reflexivity |].
  destruct s as [| d s]; [discriminate H |].
  apply andb_true_iff in H. destruct H as [Hc H].
  rewrite Hc. simpl. apply IH. exact H.
Qed.

(** A text that contains a word contains the beginning of the word. *)
Lemma contains_app (a b s : string) :
  Str.contains (a ++ b) s = true -> Str.contains a s = true.
Proof.
  induction s as [| d s IH]; simpl; intros H.
  - rewrite orb_false_r in *. eapply startswith_app. exact H.
  - apply orb_true_iff in H. apply orb_true_iff. destruct H as [H | H].
    + left. eapply startswith_app. exact H.
    + right. apply IH. exact H.
Qed.

(** ** Searches *)

Lemma rep_upto_some {R : Type} (cls : ascii -> bool) (hi lo : nat)
    (b : option ascii) (s : string) (k : string -> Re.pos -> option R)
    (r : R) :
  Re.rep_upto cls lo hi b s k = Some r -> exists t p, k t p = Some r.
Proof.
  revert lo b s k. induction hi as [| hi IH]; intros lo b s k H.
  - simpl in H. destruct lo; [eauto | discriminate H].
  - simpl in H.
    assert (match lo with
            | O => k EmptyString (Re.mkPos b s)
            | S _ => None
            end = Some r -> exists t p, k t p = Some r) as Hstop.
    { destruct lo; [eauto | discriminate]. }
    destruct s as [| c s]; [auto |].
    destruct (cls c); [| auto].
    unfold Re.orelse in H.
    destruct (Re.rep_upto cls (pred lo) hi (Some c) s
                (fun t p' => k (String c t) p')) as [r' |] eqn:E; [| auto].
    injection H as <-. apply IH in E. destruct E as [t [p E]]. eauto.
Qed.

Lemma year_match_groups (p : Re.pos) (m : Re.found) :
  Re.match_at year_pattern p = Some m ->
  exists t, Re.groups m = ["20" ++ t].
Proof.
  unfold Re.match_at, year_pattern, year_group, Re.digits.
  cbn [Re.run]. intros H.
  destruct (xorb (Re.word_before p) (Re.word_after p)); [| discriminate H].
  destruct (Re.lit "20" p) as [p1 |]; [| discriminate H].
  apply rep_upto_some in H. destruct H as [t [p2 H]].
  destruct (xorb (Re.word_before p2) (Re.word_after p2)); [| discriminate H].
  injection H as <-. exists t. reflexivity.
Qed.

Lemma findall_from_forall (r : Re.regex) (P : string -> Prop) :
  (forall p m, Re.match_at r p = Some m -> P (hd EmptyString (Re.groups m))) ->
  forall s skip b, Forall P (Re.findall_from r skip b s).
Proof.
  intros Hr. induction s as [| c s IH]; intros skip b.
  - simpl. destruct skip; [| constructor].
    destruct (Re.match_at r (Re.mkPos b "")) as [m |] eqn:E; constructor.
    + eapply Hr. exact E.
    + constructor.
  - simpl. destruct skip; [| apply IH].
    destruct (Re.match_at r (Re.mkPos b (String c s))) as [m |] eqn:E.
    + constructor; [eapply Hr; exact E | apply IH].
    + apply IH.
Qed.

Lemma years_of_head (query : string) :
  Forall (fun y => first_char y = Some "2"%char) (years_of query).
Proof.
  apply findall_from_forall. intros p m H.
  apply year_match_groups in H. destruct H as [t ->]. reflexivity.
Qed.

Lemma none_not_a_year (query : string) :
  in_strs "None" (years_of query) = false.
Proof.
  pose proof (years_of_head query) as H. unfold in_strs.
  induction H as [| y l Hy _ IH]; [reflexivity |].
  cbn [existsb]. apply orb_false_iff. split; [| exact IH].
  destruct (String.eqb_spec "None" y) as [<- |]; [discriminate Hy | reflexivity].
Qed.

Lemma search_from_hit (r : Re.regex) (b : option ascii) (s : string)
    (m : Re.found) :
  Re.match_at r (Re.mkPos b s) = Some m -> Re.search_from r b s = Some m.
Proof.
  intros H. destruct s; simpl; rewrite H; reflexivity.
Qed.

Lemma day_month_year_found (b : option ascii) (s : string) :
  Re.match_at pattern_day_month_year (Re.mkPos b ("15 august 2023" ++ s))
  = Some (Re.mkFound ["15"; "august"; "2023"] "15 august 2023"
            (Re.mkPos (Some "3"%char) s)).
Proof. reflexivity. Qed.

Lemma iso_found (b : option ascii) (s : string) :
  Re.match_at pattern_iso (Re.mkPos b ("2023-08-15" ++ s))
  = Some (Re.mkFound ["2023"; "08"; "15"] "2023-08-15"
            (Re.mkPos (Some "5"%char) s)).
Proof. reflexivity. Qed.

Lemma rep_from_some {R : Type} (cls : ascii -> bool) (s : string) (lo : nat)
    (b : option ascii) (k : string -> Re.pos -> option R) (r : R) :
  Re.rep_from cls lo b s k = Some r -> exists t p, k t p = Some r.
Proof.
  revert lo b k. induction s as [| c s IH]; intros lo b k H; simpl in H.
  - destruct lo; [eauto | discriminate H].
  - assert (match lo with
            | O => k EmptyString (Re.mkPos b (String c s))
            | S _ => None
            end = Some r -> exists t p, k t p = Some r) as Hstop.
    { destruct lo; [eauto | discriminate]. }
    destruct (cls c); [| auto].
    unfold Re.orelse in H.
    destruct (Re.rep_from cls (pred lo) (Some c) s
                (fun t p' => k (String c t) p')) as [r' |] eqn:E; [| auto].
    injection H as <-. apply IH in E. destruct E as [t [p E]]. eauto.
Qed.

Lemma run_alts {R : Type} (names : list string) (p : Re.pos)
    (caps : list string) (k : Re.cont) (r : R) :
  names <> [] ->
  Re.run (Re.alts names) p caps k = Some r ->
  exists name p', In name names /\ k name p' caps = Some r.
Proof.
  induction names as [| x l IH]; intros Hne H; [contradiction |].
  destruct l as [| y l].
  - simpl in H. destruct (Re.lit x p) as [p' |]; [| discriminate H].
    exists x, p'. split; [left; reflexivity | exact H].
  - change (Re.alts (x :: y :: l)) with (Re.Alt (Re.Lit x) (Re.alts (y :: l)))
      in H.
    cbn [Re.run] in H. unfold Re.orelse in H.
    destruct (Re.lit x p) as [p' |].
    + destruct (k x p' caps) as [r' |] eqn:E.
      * injection H as <-. exists x, p'. split; [left; reflexivity | exact E].
      * destruct (IH ltac:(discriminate) H) as [name [p'' [Hin Hk]]].
        exists name, p''. split; [right; exact Hin | exact Hk].
    + destruct (IH ltac:(discriminate) H) as [name [p'' [Hin Hk]]].
      exists name, p''. split; [right; exact Hin | exact Hk].
Qed.

Lemma search_from_some (r : Re.regex) (s : string) (b : option ascii)
    (m : Re.found) :
  Re.search_from r b s = Some m -> exists p, Re.match_at r p = Some m.
Proof.
  revert b. induction s as [| c s IH]; intros b H; simpl in H.
  - destruct (Re.match_at r (Re.mkPos b "")) eqn:E; [| discriminate H].
    injection H as <-. eauto.
  - destruct (Re.match_at r (Re.mkPos b (String c s))) eqn:E.
    + injection H as <-. eauto.
    + eapply IH. exact H.
Qed.

(** The groups of a date with the month first. *)
Lemma month_day_year_groups (p : Re.pos) (m : Re.found) :
  Re.match_at pattern_month_day_year p = Some m ->
  exists name d t,
    In name (map fst months_map) /\ Re.groups m = [name; d; "20" ++ t].
Proof.
  unfold Re.match_at, pattern_month_day_year, month_group, day_group,
    year_group, Re.spaces, Re.digits.
  cbn [Re.run]. intros H.
  apply run_alts in H; [| discriminate].
  destruct H as [name [p1 [Hname H]]].
  apply rep_from_some in H. destruct H as [t1 [p2 H]].
  apply rep_upto_some in H. destruct H as [d [p3 H]].
  apply rep_from_some in H. destruct H as [t2 [p4 H]].
  destruct (Re.lit "20" p4) as [p5 |]; [| discriminate H].
  apply rep_upto_some in H. destruct H as [t [p6 H]].
  injection H as <-. exists name, d, t. split; [exact Hname | reflexivity].
Qed.

Lemma month_name_not_int (name : string) :
  In name (map fst months_map) ->
  Str.isdigit name = false /\ Str.int name = Raise ValueError.
Proof.
  simpl. intros H.
  repeat (destruct H as [<- | H]; [split; reflexivity |]).
  contradiction.
Qed.

(** ** Texts of matches *)

Lemma rep_upto_text {R : Type} (cls : ascii -> bool) (hi lo : nat)
    (b : option ascii) (s : string) (k : string -> Re.pos -> option R)
    (r : R) :
  Re.rep_upto cls lo hi b s k = Some r ->
  exists t p,
    k t p = Some r /\ Str.forallb cls t = true
    /\ (lo <= String.length t <= hi)%nat.
Proof.
  revert lo b s k. induction hi as [| hi IH]; intros lo b s k H.
  - simpl in H. destruct lo; [| discriminate H].
    exists EmptyString. eexists. repeat split; [exact H | simpl; lia ..].
  - simpl in H.
    assert (match lo with
            | O => k EmptyString (Re.mkPos b s)
            | S _ => None
            end = Some r ->
            exists t p,
              k t p = Some r /\ Str.forallb cls t = true
              /\ (lo <= String.length t <= S hi)%nat) as Hstop.
    { destruct lo; [| discriminate]. intros E.
      exists EmptyString. eexists. repeat split; [exact E | simpl; lia ..]. }
    destruct s as [| c s]; [auto |].
    destruct (cls c) eqn:Ec; [| auto].
    unfold Re.orelse in H.
    destruct (Re.rep_upto cls (pred lo) hi (Some c) s
                (fun t p' => k (String c t) p')) as [r' |] eqn:E; [| auto].
    injection H as <-. apply IH in E.
    destruct E as [t [p [E [Ht Hlen]]]].
    exists (String c t), p. simpl. rewrite Ec, Ht.
    repeat split; [exact E | lia ..].
Qed.

Lemma rep_from_text {R : Type} (cls : ascii -> bool) (s : string) (lo : nat)
    (b : option ascii) (k : string -> Re.pos -> option R) (r : R) :
  Re.rep_from cls lo b s k = Some r ->
  exists t p,
    k t p = Some r /\ Str.forallb cls t = true
    /\ (lo <= String.length t)%nat.
Proof.
  revert lo b k. induction s as [| c s IH]; intros lo b k H; simpl in H.
  - destruct lo; [| discriminate H].
    exists EmptyString. eexists. repeat split; [exact H | simpl; lia].
  - assert (match lo with
            | O => k EmptyString (Re.mkPos b (String c s))
            | S _ => None
            end = Some r ->
            exists t p,
              k t p = Some r /\ Str.forallb cls t = true
              /\ (lo <= String.length t)%nat) as Hstop.
    { destruct lo; [| discriminate]. intros E.
      exists EmptyString. eexists. repeat split; [exact E | simpl; lia]. }
    destruct (cls c) eqn:Ec; [| auto].
    unfold Re.orelse in H.
    destruct (Re.rep_from cls (pred lo) (Some c) s
                (fun t p' => k (String c t) p')) as [r' |] eqn:E; [| auto].
    injection H as <-. apply IH in E.
    destruct E as [t [p [E [Ht Hlen]]]].
    exists (String c t), p. simpl. rewrite Ec, Ht.
    repeat split; [exact E | lia].
Qed.

Lemma digit_val_bounds (c : ascii) :
  Str.is_decimal c = true -> 0 <= Str.digit_val c <= 9.
Proof.
  unfold Str.is_decimal, Str.between, Str.digit_val. intros H.
  apply andb_true_iff in H. destruct H as [H1 H2].
  apply N.leb_le in H1, H2. lia.
Qed.

Lemma int_acc_value (s : string) :
  is_number s = true ->
  forall a,
    Str.int_acc a s = a * 10 ^ Z.of_nat (String.length s) + Str.int_acc 0 s
    /\ 0 <= Str.int_acc 0 s < 10 ^ Z.of_nat (String.length s).
Proof.
  unfold is_number. induction s as [| c s IH]; intros H a.
  - simpl. lia.
  - simpl in H. apply andb_true_iff in H. destruct H as [Hc Hs].
    pose proof (digit_val_bounds c Hc) as Hd.
    cbn [Str.int_acc String.length].
    destruct (IH Hs (10 * a + Str.digit_val c)) as [E1 _].
    destruct (IH Hs (10 * 0 + Str.digit_val c)) as [E2 B].
    rewrite E1, E2. rewrite Nat2Z.inj_succ, Z.pow_succ_r by lia.
    split; nia.
Qed.

Lemma int_of_number (s : string) :
  is_number s = true -> (1 <= String.length s)%nat ->
  Z.of_nat (String.length s) <= Str.max_str_digits ->
  Str.int s = Ok (Str.int_acc 0 s).
Proof.
  unfold Str.int, is_number. intros H L M.
  destruct s; [simpl in L; lia |]. rewrite H.
  apply Z.leb_le in M. rewrite M. reflexivity.
Qed.

(** A number written with more digits than the interpreter converts. *)
Lemma int_too_long (s : string) :
  Str.max_str_digits < Z.of_nat (String.length s) ->
  Str.int s = Raise ValueError.
Proof.
  unfold Str.int. intros M. destruct s; [reflexivity |].
  apply Z.leb_gt in M. rewrite M, andb_false_r. reflexivity.
Qed.

Lemma year_text_int (s : string) :
  is_year_text s -> exists n, Str.int s = Ok n /\ 2000 <= n <= 2099.
Proof.
  intros [t [-> [Ht Hlen]]].
  exists (Str.int_acc 0 ("20" ++ t)). split.
  - apply int_of_number;
      [exact Ht | simpl; lia
      | cbn [append String.length]; rewrite Hlen;
        unfold Str.max_str_digits; lia].
  - cbn [append Str.int_acc]. destruct (int_acc_value t Ht 20) as [E _].
    destruct (int_acc_value t Ht 0) as [_ B].
    change (10 * (10 * 0 + Str.digit_val "2") + Str.digit_val "0") with 20.
    rewrite E, Hlen in *. change (10 ^ Z.of_nat 2) with 100 in *. lia.
Qed.

Lemma day_text_int (s : string) :
  is_day_text s -> exists n, Str.int s = Ok n /\ 0 <= n <= 99.
Proof.
  intros [Hs Hlen]. exists (Str.int_acc 0 s). split.
  - apply int_of_number; [exact Hs | lia | unfold Str.max_str_digits; lia].
  - destruct (int_acc_value s Hs 0) as [_ B].
    assert (10 ^ Z.of_nat (String.length s) <= 10 ^ 2)
      by (apply Z.pow_le_mono_r; lia).
    lia.
Qed.

Lemma year_group_text {R : Type} (p : Re.pos) (caps : list string)
    (k : Re.cont) (r : R) :
  Re.run year_group p caps k = Some r ->
  exists y p', is_year_text y /\ k y p' (caps ++ [y])%list = Some r.
Proof.
  unfold year_group, Re.digits. cbn [Re.run]. intros H.
  destruct (Re.lit "20" p) as [p1 |]; [| discriminate H].
  apply rep_upto_text in H. destruct H as [t [p2 [H [Ht Hlen]]]].
  exists ("20" ++ t), p2. split; [| exact H].
  exists t. repeat split; [exact Ht | lia].
Qed.

Lemma day_group_text {R : Type} (p : Re.pos) (caps : list string)
    (k : Re.cont) (r : R) :
  Re.run day_group p caps k = Some r ->
  exists d p', is_day_text d /\ k d p' (caps ++ [d])%list = Some r.
Proof.
  unfold day_group, Re.digits. cbn [Re.run]. intros H.
  apply rep_upto_text in H. destruct H as [t [p2 [H [Ht Hlen]]]].
  exists t, p2. split; [split; assumption | exact H].
Qed.

Lemma spaces_text {R : Type} (p : Re.pos) (caps : list string)
    (k : Re.cont) (r : R) :
  Re.run Re.spaces p caps k = Some r -> exists t p', k t p' caps = Some r.
Proof.
  unfold Re.spaces. cbn [Re.run]. intros H.
  apply rep_from_text in H. destruct H as [t [p2 [H _]]]. eauto.
Qed.

Lemma month_group_text {R : Type} (p : Re.pos) (caps : list string)
    (k : Re.cont) (r : R) :
  Re.run month_group p caps k = Some r ->
  exists name p',
    In name (map fst months_map) /\ k name p' (caps ++ [name])%list = Some r.
Proof.
  unfold month_group. cbn [Re.run]. intros H.
  apply run_alts in H; [| discriminate].
  destruct H as [name [p' [Hin H]]]. eauto.
Qed.

(** The groups of the three date patterns. *)
Lemma day_month_year_groups (p : Re.pos) (m : Re.found) :
  Re.match_at pattern_day_month_year p = Some m ->
  exists d name y,
    Re.groups m = [d; name; y]
    /\ is_day_text d /\ In name (map fst months_map) /\ is_year_text y.
Proof.
  unfold Re.match_at, pattern_day_month_year. cbn [Re.run]. intros H.
  apply day_group_text in H. destruct H as [d [p1 [Hd H]]].
  apply spaces_text in H. destruct H as [t1 [p2 H]].
  apply month_group_text in H. destruct H as [name [p3 [Hname H]]].
  apply spaces_text in H. destruct H as [t2 [p4 H]].
  apply year_group_text in H. destruct H as [y [p5 [Hy H]]].
  injection H as <-. exists d, name, y.
  split; [reflexivity |]. split; [exact Hd |]. split; assumption.
Qed.

Lemma iso_groups (p : Re.pos) (m : Re.found) :
  Re.match_at pattern_iso p = Some m ->
  exists y a b,
    Re.groups m = [y; a; b]
    /\ is_year_text y /\ is_day_text a /\ is_day_text b.
Proof.
  unfold Re.match_at, pattern_iso. cbn [Re.run]. intros H.
  apply year_group_text in H. destruct H as [y [p1 [Hy H]]].
  destruct (Re.lit "-" p1) as [p2 |]; [| discriminate H].
  apply day_group_text in H. destruct H as [a [p3 [Ha H]]].
  destruct (Re.lit "-" p3) as [p4 |]; [| discriminate H].
  apply day_group_text in H. destruct H as [b [p5 [Hb H]]].
  injection H as <-. exists y, a, b.
  split; [reflexivity |]. split; [exact Hy |]. split; assumption.
Qed.

Lemma last_months_groups (p : Re.pos) (m : Re.found) :
  Re.match_at last_months_pattern p = Some m ->
  exists n,
    Re.groups m = [n] /\ is_number n = true /\ (1 <= String.length n)%nat.
Proof.
  unfold Re.match_at, last_months_pattern, Re.digits. cbn [Re.run]. intros H.
  destruct (Re.lit "last" p) as [p1 |]; [| discriminate H].
  apply spaces_text in H. destruct H as [t1 [p2 H]].
  apply rep_from_text in H. destruct H as [n [p3 [H [Hn Hlen]]]].
  apply spaces_text in H. destruct H as [t2 [p4 H]].
  destruct (Re.lit "month" p4) as [p5 |]; [| discriminate H].
  unfold Re.orelse in H.
  destruct (Re.lit "s" p5) as [p6 |]; injection H as <-;
    exists n; (split; [reflexivity |]); split; assumption.
Qed.

Lemma search_groups (r : Re.regex) (s : string) (g : list string) :
  Re.search r s = Some g ->
  exists p m, Re.match_at r p = Some m /\ Re.groups m = g.
Proof.
  unfold Re.search. intros H.
  destruct (Re.search_from r None s) as [m |] eqn:E; [| discriminate H].
  injection H as <-. apply search_from_some in E. destruct E as [p E].
  eauto.
Qed.

Lemma month_to_number_range (month_str : string) :
  1 <= _month_to_number month_str <= 12.
Proof.
  unfold _month_to_number.
  destruct (get (Str.lower month_str) months_map) as [n |] eqn:E; [| lia].
  unfold months_map in E. cbn [get] in E.
  repeat match type of E with
         | (if ?b then _ else _) = _ =>
             destruct b; [injection E as <-; lia |]
         end.
  discriminate E.
Qed.

Lemma is_digit_of_decimal (s : string) :
  is_number s = true -> Str.forallb Str.is_digit s = true.
Proof.
  unfold is_number. induction s as [| c s IH]; [reflexivity |].
  simpl. intros H. apply andb_true_iff in H. destruct H as [Hc Hs].
  rewrite (IH Hs), andb_true_r.
  unfold Str.is_digit, Str.is_decimal in *. rewrite Hc. reflexivity.
Qed.

Lemma date_of_day_month_year (d name y : string) :
  is_day_text d -> In name (map fst months_map) -> is_year_text y ->
  exists dt,
    date_of_groups [d; name; y] = Ok dt
    /\ date_in_range dt /\ 1 <= d_month dt <= 12.
Proof.
  intros Hd Hname Hy.
  destruct (day_text_int d Hd) as [nd [Ed Bd]].
  destruct (year_text_int y Hy) as [ny [Ey By]].
  unfold date_of_groups. cbn [group nth].
  assert ((String.length d =? 4)%nat = false) as ->
    by (apply Nat.eqb_neq; destruct Hd; lia).
  rewrite andb_false_r.
  assert (Str.startswith "20" y = true) as ->
    by (destruct Hy as [t [-> _]]; reflexivity).
  rewrite Ed, Ey. cbn [rbind]. eexists. split; [reflexivity |].
  pose proof (month_to_number_range name).
  unfold date_in_range. cbn. lia.
Qed.

Lemma date_of_iso (y a b : string) :
  is_year_text y -> is_day_text a -> is_day_text b ->
  exists dt, date_of_groups [y; a; b] = Ok dt /\ date_in_range dt.
Proof.
  intros Hy Ha Hb.
  destruct (year_text_int y Hy) as [ny [Ey By]].
  destruct (day_text_int a Ha) as [na [Ea Ba]].
  destruct (day_text_int b Hb) as [nb [Eb Bb]].
  unfold date_of_groups. cbn [group nth].
  assert (Str.isdigit y && (String.length y =? 4)%nat = true) as ->.
  { destruct Hy as [t [-> [Ht Hlen]]]. apply andb_true_iff. split.
    - cbn. apply is_digit_of_decimal in Ht. exact Ht.
    - cbn. rewrite Hlen. reflexivity. }
  rewrite Ey, Ea, Eb. cbn [rbind]. eexists. split; [reflexivity |].
  unfold date_in_range. cbn. lia.
Qed.

(** ** The first date of a query *)

(** A date with the month first, when no date with the day first is
    found, makes the extraction and the search raise. *)
Lemma month_first_date_raises (query : string) :
  Re.search pattern_day_month_year (Str.lower query) = None ->
  Re.search pattern_month_day_year (Str.lower query) <> None ->
  specific_date_of query = Raise ValueError
  /\ forall argo_data log,
       search_relevant_data query argo_data log = (Raise ValueError, log).
Proof.
  intros H1 H2.
  assert (specific_date_of query = Raise ValueError) as Hsd.
  { unfold specific_date_of, date_patterns. cbn [find_specific_date].
    rewrite H1. unfold Re.search in *.
    destruct (Re.search_from pattern_month_day_year None (Str.lower query))
      as [m |] eqn:E; [| contradiction].
    apply search_from_some in E. destruct E as [p E].
    apply month_day_year_groups in E.
    destruct E as [name [d [t [Hname Hg]]]].
    cbn [option_map]. rewrite Hg. cbn [List.length Nat.eqb].
    unfold date_of_groups. cbn [group nth].
    destruct (month_name_not_int name Hname) as [-> ->]. reflexivity. }
  split; [exact Hsd |].
  intros argo_data log. unfold search_relevant_data, extract, bind, lift.
  rewrite Hsd. reflexivity.
Qed.

(** A search finds a match at the latest where one starts. *)
Lemma search_from_found (r : Re.regex) (pre s : string) (b : option ascii) :
  (forall b', Re.match_at r (Re.mkPos b' s) <> None) ->
  Re.search_from r b (pre ++ s) <> None.
Proof.
  intros H. revert b. induction pre as [| c pre IH]; intros b.
  - change (EmptyString ++ s) with s.
    destruct (Re.match_at r (Re.mkPos b s)) as [m |] eqn:E.
    + rewrite (search_from_hit r b s m E). discriminate.
    + exfalso. exact (H b E).
  - cbn [append Re.search_from].
    destruct (Re.match_at r (Re.mkPos b (String c (pre ++ s))));
      [discriminate | apply IH].
Qed.

(** A search passes the text in which no match starts. *)
Lemma search_from_first (r : Re.regex) (pre s : string) :
  ~ starts_before r pre s ->
  forall b, exists b', Re.search_from r b (pre ++ s) = Re.search_from r b' s.
Proof.
  induction pre as [| c pre IH]; intros H b.
  - exists b. reflexivity.
  - cbn [append Re.search_from].
    destruct (Re.match_at r (Re.mkPos b (String c (pre ++ s)))) eqn:E.
    + exfalso. apply H. exists EmptyString, c, pre, b.
      split; [reflexivity | rewrite E; discriminate].
    + apply IH. intros [p1 [c' [p2 [b' [Hp Hm]]]]]. apply H.
      exists (String c p1), c', p2, b'. rewrite Hp. split; [reflexivity | exact Hm].
Qed.

(** The roles of the groups of a date with the day first: the third one,
    which starts with "20", is the year. *)
Lemma reading_day_first (d name y : string) :
  is_day_text d -> is_year_text y ->
  exists dt,
    day_first_reading [d; name; y] dt
    /\ date_of_groups [d; name; y] = Ok dt.
Proof.
  intros Hd Hy.
  destruct (day_text_int d Hd) as [nd [Ed _]].
  destruct (year_text_int y Hy) as [ny [Ey _]].
  exists (mkDate ny (_month_to_number name) nd). split.
  - exists d, name, y. repeat split; assumption.
  - unfold date_of_groups. cbn [group nth].
    assert ((String.length d =? 4)%nat = false) as ->
      by (apply Nat.eqb_neq; destruct Hd; lia).
    rewrite andb_false_r.
    assert (Str.startswith "20" y = true) as ->
      by (destruct Hy as [t [-> _]]; reflexivity).
    rewrite Ed, Ey. reflexivity.
Qed.

(** The roles of the groups of an ISO date: the first one, of four
    digits, is the year. *)
Lemma reading_iso (y a b : string) :
  is_year_text y -> is_day_text a -> is_day_text b ->
  exists dt,
    iso_reading [y; a; b] dt /\ date_of_groups [y; a; b] = Ok dt.
Proof.
  intros Hy Ha Hb.
  destruct (year_text_int y Hy) as [ny [Ey _]].
  destruct (day_text_int a Ha) as [na [Ea _]].
  destruct (day_text_int b Hb) as [nb [Eb _]].
  exists (mkDate ny na nb). split.
  - exists y, a, b. repeat split; assumption.
  - unfold date_of_groups. cbn [group nth].
    assert (Str.isdigit y && (String.length y =? 4)%nat = true) as ->.
    { destruct Hy as [t [-> [Ht Hlen]]]. apply andb_true_iff. split.
      - cbn. apply is_digit_of_decimal in Ht. exact Ht.
      - cbn. rewrite Hlen. reflexivity. }
    rewrite Ey, Ea, Eb. reflexivity.
Qed.

Lemma day_first_reading_unique (g : list string) (dt dt' : date) :
  day_first_reading g dt -> day_first_reading g dt' -> dt = dt'.
Proof.
  intros [d [name [y [-> [Hd [Hm Hy]]]]]] [d' [name' [y' [E [Hd' [Hm' Hy']]]]]].
  injection E as <- <- <-. rewrite Hd in Hd'. rewrite Hy in Hy'.
  injection Hd' as Hd'. injection Hy' as Hy'.
  destruct dt, dt'. cbn in *. congruence.
Qed.

Lemma iso_reading_unique (g : list string) (dt dt' : date) :
  iso_reading g dt -> iso_reading g dt' -> dt = dt'.
Proof.
  intros [y [m [d [-> [Hy [Hm Hd]]]]]] [y' [m' [d' [E [Hy' [Hm' Hd']]]]]].
  injection E as <- <- <-. rewrite Hy in Hy'. rewrite Hm in Hm'.
  rewrite Hd in Hd'. injection Hy' as Hy'. injection Hm' as Hm'.
  injection Hd' as Hd'. destruct dt, dt'. cbn in *. congruence.
Qed.

(** The extraction reads the first date with the day first, when there is
    one. *)
Lemma specific_date_day_first (query : string) (g : list string) :
  Re.search pattern_day_month_year (Str.lower query) = Some g ->
  exists dt,
    day_first_reading g dt /\ specific_date_of query = Ok (Some dt).
Proof.
  intros H. unfold specific_date_of, date_patterns.
  cbn [find_specific_date]. rewrite H.
  apply search_groups in H. destruct H as [p [m [H <-]]].
  apply day_month_year_groups in H.
  destruct H as [d [name [y [-> [Hd [_ Hy]]]]]].
  destruct (reading_day_first d name y Hd Hy) as [dt [Hr ->]].
  exists dt. split; [exact Hr | reflexivity].
Qed.

(** It reads the first ISO date when no date with a month name is
    found. *)
Lemma specific_date_iso (query : string) (g : list string) :
  Re.search pattern_day_month_year (Str.lower query) = None ->
  Re.search pattern_month_day_year (Str.lower query) = None ->
  Re.search pattern_iso (Str.lower query) = Some g ->
  exists dt, iso_reading g dt /\ specific_date_of query = Ok (Some dt).
Proof.
  intros H1 H2 H. unfold specific_date_of, date_patterns.
  cbn [find_specific_date]. rewrite H1, H2, H.
  apply search_groups in H. destruct H as [p [m [H <-]]].
  apply iso_groups in H. destruct H as [y [a [b [-> [Hy [Ha Hb]]]]]].
  destruct (reading_iso y a b Hy Ha Hb) as [dt [Hr ->]].
  exists dt. split; [exact Hr | reflexivity].
Qed.

(** The rule of the roles: a first group of four digits is the year of
    an ISO reading; otherwise a third group that starts with "20" is the
    year of a reading with the day first. *)
Lemma date_of_groups_roles (a b c : string) (dt : date) :
  (Str.isdigit a && (String.length a =? 4)%nat = true ->
   (date_of_groups [a; b; c] = Ok dt <-> iso_reading [a; b; c] dt))
  /\ (Str.isdigit a && (String.length a =? 4)%nat = false ->
      Str.startswith "20" c = true ->
      (date_of_groups [a; b; c] = Ok dt
       <-> day_first_reading [a; b; c] dt)).
Proof.
  unfold date_of_groups. cbn [group nth]. split.
  - intros ->. split.
    + intros H. bind_ok H as y Hy. bind_ok H as m Hm. bind_ok H as d Hd.
      injection H as <-. exists a, b, c. repeat split; assumption.
    + intros [y [m [d [E [Hy [Hm Hd]]]]]]. injection E as <- <- <-.
      rewrite Hy, Hm, Hd. destruct dt. reflexivity.
  - intros -> ->. split.
    + intros H. bind_ok H as d Hd. bind_ok H as y Hy.
      injection H as <-. exists a, b, c. repeat split; assumption.
    + intros [d [name [y [E [Hd [Hm Hy]]]]]]. injection E as <- <- <-.
      rewrite Hd, Hy. cbn [rbind]. rewrite Hm. destruct dt. reflexivity.
Qed.

(** C1 (as amended). The extraction reads the first date of the query.
    When the pattern with the day first matches, the specific date is the
    one that the groups of its leftmost match read as day, month name and
    year; when no pattern with a month name matches and the ISO pattern
    does, it is the one that the groups of its leftmost match read as
    year, month and day.  A query that contains "15 August 2023" has a
    match of the first pattern, and gives 2023-08-15 when no such match
    starts before that text; a query that contains "2023-08-15" has a
    match of the ISO pattern, and gives 2023-08-15 when no pattern with a
    month name matches and no ISO match starts before that text.  The
    roles of three groups are decided by the groups: a first group of
    four digits is the year, and otherwise a third group that starts
    with "20" is. *)
Theorem specific_date_round_trip (query : string) :
  (forall a b c dt,
     (Str.isdigit a && (String.length a =? 4)%nat = true ->
      (date_of_groups [a; b; c] = Ok dt <-> iso_reading [a; b; c] dt))
     /\ (Str.isdigit a && (String.length a =? 4)%nat = false ->
         Str.startswith "20" c = true ->
         (date_of_groups [a; b; c] = Ok dt
          <-> day_first_reading [a; b; c] dt)))
  /\ (forall g,
        Re.search pattern_day_month_year (Str.lower query) = Some g ->
        (exists dt, day_first_reading g dt)
        /\ forall dt,
             specific_date_of query = Ok (Some dt)
             <-> day_first_reading g dt)
  /\ (forall g,
        Re.search pattern_day_month_year (Str.lower query) = None ->
        Re.search pattern_month_day_year (Str.lower query) = None ->
        Re.search pattern_iso (Str.lower query) = Some g ->
        (exists dt, iso_reading g dt)
        /\ forall dt,
             specific_date_of query = Ok (Some dt) <-> iso_reading g dt)
  /\ (forall pre suf,
        query = pre ++ "15 August 2023" ++ suf ->
        Re.search pattern_day_month_year (Str.lower query) <> None
        /\ (~ starts_before pattern_day_month_year (Str.lower pre)
                ("15 august 2023" ++ Str.lower suf) ->
            specific_date_of query = Ok (Some (mkDate 2023 8 15))))
  /\ (forall pre suf,
        query = pre ++ "2023-08-15" ++ suf ->
        Re.search pattern_iso (Str.lower query) <> None
        /\ (Re.search pattern_day_month_year (Str.lower query) = None ->
            Re.search pattern_month_day_year (Str.lower query) = None ->
            ~ starts_before pattern_iso (Str.lower pre)
                ("2023-08-15" ++ Str.lower suf) ->
            specific_date_of query = Ok (Some (mkDate 2023 8 15)))).
Proof.
  split; [exact date_of_groups_roles |]. split; [| split; [| split]].
  - intros g H.
    destruct (specific_date_day_first query g H) as [dt0 [Hr0 E0]].
    split; [exists dt0; exact Hr0 |].
    intros dt. rewrite E0. split.
    + intros E. injection E as <-. exact Hr0.
    + intros Hr. rewrite (day_first_reading_unique g dt0 dt Hr0 Hr).
      reflexivity.
  - intros g H1 H2 H.
    destruct (specific_date_iso query g H1 H2 H) as [dt0 [Hr0 E0]].
    split; [exists dt0; exact Hr0 |].
    intros dt. rewrite E0. split.
    + intros E. injection E as <-. exact Hr0.
    + intros Hr. rewrite (iso_reading_unique g dt0 dt Hr0 Hr). reflexivity.
  - intros pre suf ->. rewrite lower_app, lower_app.
    change (Str.lower "15 August 2023") with "15 august 2023".
    unfold Re.search. split.
    + pose proof (search_from_found pattern_day_month_year (Str.lower pre)
                    ("15 august 2023" ++ Str.lower suf) None) as F.
      destruct (Re.search_from pattern_day_month_year None
                  (Str.lower pre ++ "15 august 2023" ++ Str.lower suf));
        [discriminate |].
      exfalso. apply F; [| reflexivity].
      intros b'. rewrite day_month_year_found. discriminate.
    + intros Hfirst.
      destruct (search_from_first _ _ _ Hfirst None) as [b' Hb'].
      rewrite (search_from_hit _ _ _ _
                 (day_month_year_found b' (Str.lower suf))) in Hb'.
      unfold specific_date_of, date_patterns. cbn [find_specific_date].
      rewrite lower_app, lower_app.
      change (Str.lower "15 August 2023") with "15 august 2023".
      unfold Re.search. rewrite Hb'. reflexivity.
  - intros pre suf ->. rewrite lower_app, lower_app.
    change (Str.lower "2023-08-15") with "2023-08-15".
    unfold Re.search. split.
    + pose proof (search_from_found pattern_iso (Str.lower pre)
                    ("2023-08-15" ++ Str.lower suf) None) as F.
      destruct (Re.search_from pattern_iso None
                  (Str.lower pre ++ "2023-08-15" ++ Str.lower suf));
        [discriminate |].
      exfalso. apply F; [| reflexivity].
      intros b'. rewrite iso_found. discriminate.
    + intros H1 H2 Hfirst.
      destruct (search_from_first _ _ _ Hfirst None) as [b' Hb'].
      rewrite (search_from_hit _ _ _ _ (iso_found b' (Str.lower suf)))
        in Hb'.
      unfold specific_date_of, date_patterns. cbn [find_specific_date].
      rewrite lower_app, lower_app.
      change (Str.lower "2023-08-15") with "2023-08-15".
      unfold Re.search in *. rewrite H1, H2, Hb'. reflexivity.
Qed.

Lemma specific_date_round_trip_witness :
  specific_date_of "float 5904 on 15 August 2023"
  = Ok (Some (mkDate 2023 8 15))
  /\ specific_date_of "in 2023, 2023-08-15" = Ok (Some (mkDate 2023 8 15))
  /\ specific_date_of "15 aug 2023 or 15 August 2023"
     = Ok (Some (mkDate 2023 8 15))
  /\ specific_date_of "Salinity on 15 August 2023 please"
     = Ok (Some (mkDate 2023 8 15))
  /\ specific_date_of "Floats 2023-08-15?" = Ok (Some (mkDate 2023 8 15)).
Proof.
  split; [| split; [| split; [| split]]].
  - destruct (specific_date_round_trip "float 5904 on 15 August 2023")
      as [_ [Hday _]].
    apply (proj2 (Hday ["15"; "august"; "2023"] eq_refl)).
    exists "15", "august", "2023". repeat split; reflexivity.
  - destruct (specific_date_round_trip "in 2023, 2023-08-15")
      as [_ [_ [Hiso _]]].
    apply (proj2 (Hiso ["2023"; "08"; "15"] eq_refl eq_refl eq_refl)).
    exists "2023", "08", "15". repeat split; reflexivity.
  - destruct (specific_date_round_trip "15 aug 2023 or 15 August 2023")
      as [_ [Hday _]].
    apply (proj2 (Hday ["15"; "aug"; "2023"] eq_refl)).
    exists "15", "aug", "2023". repeat split; reflexivity.
  - destruct (specific_date_round_trip "Salinity on 15 August 2023 please")
      as [_ [_ [_ [Htext _]]]].
    apply (proj2 (Htext "Salinity on " " please" eq_refl)).
    intros [p1 [c [p2 [b [E H]]]]]. vm_compute in E.
    repeat (destruct p1 as [| ? p1];
            [injection E as <- <-; apply H; reflexivity
            | injection E as _ E]).
    destruct p1; discriminate E.
  - destruct (specific_date_round_trip "Floats 2023-08-15?")
      as [_ [_ [_ [_ Htext]]]].
    apply (proj2 (Htext "Floats " "?" eq_refl)); [reflexivity | reflexivity |].
    intros [p1 [c [p2 [b [E H]]]]]. vm_compute in E.
    repeat (destruct p1 as [| ? p1];
            [injection E as <- <-; apply H; reflexivity
            | injection E as _ E]).
    destruct p1; discriminate E.
Defined.

(** C1 (as stated) fails: the first date of a query decides, whatever
    date the query contains after it, and a date with the day first goes
    before an ISO date. *)
Lemma specific_date_first_match_decides :
  Str.contains "15 August 2023" "1 Jan 2020 or 15 August 2023" = true
  /\ specific_date_of "1 Jan 2020 or 15 August 2023"
     = Ok (Some (mkDate 2020 1 1))
  /\ specific_date_of "1 Jan 2020 or 15 August 2023"
     <> Ok (Some (mkDate 2023 8 15))
  /\ Str.contains "2023-08-15" "2023-08-15 or 1 Jan 2020" = true
  /\ specific_date_of "2023-08-15 or 1 Jan 2020"
     = Ok (Some (mkDate 2020 1 1))
  /\ specific_date_of "2023-08-15 or 1 Jan 2020"
     <> Ok (Some (mkDate 2023 8 15)).
Proof.
  repeat split; try (vm_compute; reflexivity); vm_compute; discriminate.
Qed.

(** ** Months *)

Lemma occurrences_named (q : string) (m : Z) (table : dict Z) :
  (occurrences m
     (flat_map (fun '(month_name, month_num) =>
                  if Str.contains month_name q then [month_num] else [])
               table)
   <= occurrences m (map snd table))%nat.
Proof.
  unfold occurrences. induction table as [| [name num] table IH].
  - apply Nat.le_refl.
  - cbn [flat_map map snd]. rewrite count_occ_app.
    destruct (Str.contains name q); simpl;
      destruct (Z.eq_dec num m); simpl; lia.
Qed.

Lemma occurrences_months_map (m : Z) :
  (occurrences m (map snd months_map) <= 2)%nat.
Proof.
  unfold occurrences.
  destruct (in_dec Z.eq_dec m (map snd months_map)) as [Hin | Hnot].
  - assert (forallb (fun x => (count_occ Z.eq_dec (map snd months_map) x
                               <=? 2)%nat)
                    (map snd months_map) = true) as H
      by (vm_compute; reflexivity).
    rewrite forallb_forall in H. apply Nat.leb_le, H, Hin.
  - apply (count_occ_not_In Z.eq_dec) in Hnot. rewrite Hnot. lia.
Qed.

Lemma occurrences_range (m lo : Z) :
  (occurrences m (range_to_13 lo) <= 1)%nat.
Proof.
  unfold occurrences, range_to_13.
  apply (proj1 (NoDup_count_occ Z.eq_dec _)).
  apply Finite.Injective_map_NoDup; [| apply seq_NoDup].
  intros a b H. lia.
Qed.

(** C6 (as amended). Every month number is at most twice in the list of
    the months of a query, once for each of its names found in the query;
    and the number 8 is twice in the list of a query that contains
    "august", has no specific date and no "last N months". *)
Theorem months_at_most_twice (query : string) (i : intent) :
  extract query = Ok i ->
  (forall m, (occurrences m (months_in_query i) <= 2)%nat)
  /\ (specific_date i = None ->
      Re.search last_months_pattern (Str.lower query) = None ->
      Str.contains "august" (Str.lower query) = true ->
      occurrences 8 (months_in_query i) = 2%nat).
Proof.
  unfold extract. intros H.
  bind_ok H as sd _.
  bind_ok H as months Hm.
  injection H as <-. cbn [months_in_query specific_date].
  assert (forall m, (occurrences m (months_named (Str.lower query)) <= 2)%nat)
    as Hnamed.
  { intros m. eapply Nat.le_trans; [apply occurrences_named |].
    apply occurrences_months_map. }
  unfold months_of in Hm. split.
  - intros m.
    destruct (Re.search last_months_pattern (Str.lower query)) as [g |].
    + bind_ok Hm as n _.
      destruct (years_of query).
      * injection Hm as <-. destruct sd; [apply Nat.le_0_l | apply Hnamed].
      * injection Hm as <-.
        eapply Nat.le_trans; [apply occurrences_range | lia].
    + injection Hm as <-. destruct sd; [apply Nat.le_0_l | apply Hnamed].
  - intros -> Hlast Haug. rewrite Hlast in Hm. injection Hm as <-.
    apply Nat.le_antisymm; [apply Hnamed |].
    assert (Str.contains "aug" (Str.lower query) = true) as Haug'
      by (apply (contains_app "aug" "ust"); exact Haug).
    unfold months_named.
    change months_map
      with (firstn 13 months_map
            ++ [("august", 8); ("aug", 8)] ++ skipn 15 months_map)%list.
    rewrite !flat_map_app. unfold occurrences. rewrite !count_occ_app.
    cbn [flat_map]. rewrite Haug, Haug'. cbn [app count_occ].
    destruct (Z.eq_dec 8 8) as [_ | N]; [lia | contradiction].
Qed.

Lemma months_at_most_twice_witness :
  (forall m, (occurrences m (months_in_query intent_salinity_august) <= 2)%nat)
  /\ occurrences 8 (months_in_query intent_salinity_august) = 2%nat.
Proof.
  destruct (months_at_most_twice "Salinity in August"
              intent_salinity_august eq_refl) as [H1 H2].
  split; [exact H1 |]. apply H2; reflexivity.
Defined.

(** C6 (as stated) fails: the query "august" has no specific date, and
    the list of its months is [8; 8]. *)
Lemma months_of_august_repeat :
  extract "august" = Ok (mkIntent "august" [] [8; 8] None false)
  /\ ~ NoDup (months_in_query (mkIntent "august" [] [8; 8] None false)).
Proof.
  split; [reflexivity |]. cbn [months_in_query]. intros H.
  inversion H as [| x l Hin _]. apply Hin. left. reflexivity.
Qed.

(** ** Scores *)

Lemma bonus_nonneg (b : bool) (n : Z) : 0 <= n -> 0 <= bonus b n.
Proof. destruct b; simpl; lia. Qed.

Lemma region_score_nonneg (weight : Z) (q : string) (regions : list string) :
  0 <= weight -> 0 <= region_score weight q regions.
Proof.
  intros Hw. unfold region_score.
  assert (forall acc, 0 <= acc ->
            0 <= fold_left (fun relevance_score region =>
                    relevance_score
                    + bonus (Str.contains (region_clean region) q) weight)
                  regions acc) as H.
  { induction regions as [| r rs IH]; simpl; intros acc Hacc.
    - exact Hacc.
    - apply IH. pose proof (bonus_nonneg
        (Str.contains (region_clean r) q) weight Hw). lia. }
  apply H. lia.
Qed.

Lemma strict_date_score_nonneg (sd : date) (t : temporal_t) :
  0 <= strict_date_score sd t.
Proof.
  unfold strict_date_score.
  repeat match goal with
         | |- context [if ?b then _ else _] => destruct b
         | |- context [match ?x with Some _ => _ | None => _ end] => destruct x
         end; lia.
Qed.

Lemma strict_parameter_score_nonneg (i : intent) (m : measurements_t) :
  0 <= strict_parameter_score i m.
Proof.
  unfold strict_parameter_score.
  repeat match goal with
         | |- context [bonus ?b ?n] =>
             let H := fresh in
             assert (0 <= bonus b n) as H by (apply bonus_nonneg; lia);
             generalize dependent (bonus b n); intros
         end.
  lia.
Qed.

Lemma any_within_some (k tol : Z) (l : list Z) :
  any_within (Some k) tol l = Ok (existsb (fun n => Z.abs (k - n) <=? tol) l).
Proof.
  induction l as [| n l IH]; simpl; [reflexivity |].
  destruct (Z.abs (k - n) <=? tol); simpl; [reflexivity | exact IH].
Qed.

Lemma in_ints_none (l : list Z) : in_ints None l = false.
Proof. induction l as [| n l IH]; [reflexivity | exact IH]. Qed.

Lemma any_within_none (tol : Z) (l : list Z) :
  l <> [] -> any_within None tol l = Raise TypeError.
Proof. destruct l; [contradiction | reflexivity]. Qed.

Lemma strict_temporal_score_ok (i : intent) (p : profile) :
  ~ skipped_by_strict i p ->
  exists n, strict_temporal_score i (temporal_of p) = Ok n /\ 0 <= n.
Proof.
  unfold skipped_by_strict, strict_temporal_score, strict_year_score.
  intros H.
  destruct (specific_date i) as [sd |].
  { eexists. split; [reflexivity | apply strict_date_score_nonneg]. }
  destruct (years_in_query i) as [| y ys] eqn:Ey.
  { exists 0. split; [reflexivity | lia]. }
  destruct (in_strs (str_of (year (temporal_of p))) (y :: ys)).
  2: { exists 0. split; [reflexivity | lia]. }
  destruct (months_in_query i) as [| m ms] eqn:Em.
  { exists 15. split; [reflexivity | lia]. }
  destruct (month (temporal_of p)) as [k |].
  - destruct (in_ints (Some k) (m :: ms)).
    + exists 18. split; [reflexivity | lia].
    + rewrite any_within_some. unfold rbind.
      eexists. split; [reflexivity |].
      match goal with
      | |- context [bonus ?b ?n] =>
          assert (0 <= bonus b n) by (apply bonus_nonneg; lia)
      end.
      lia.
  - exfalso. apply H. repeat split; try reflexivity. discriminate.
Qed.

Lemma strict_score_skipped (i : intent) (p : profile) :
  skipped_by_strict i p -> strict_score i p = Raise TypeError.
Proof.
  intros [Hsd [Hy [Hm Hnone]]].
  unfold strict_score, strict_temporal_score, strict_year_score.
  rewrite Hsd, Hy, Hnone.
  destruct (years_in_query i) as [| y ys]; [discriminate Hy |].
  destruct (months_in_query i) as [| m ms]; [contradiction |].
  rewrite in_ints_none. reflexivity.
Qed.

(** C3 (as amended). For every query intent and every profile that the
    strict scorer does not pass over, the strict score is a non-negative
    integer, and it is at least 1 when the profile has a temperature.  A
    profile that it passes over has no score: its scoring raises. *)
Theorem strict_score_bounds (i : intent) (p : profile) :
  (~ skipped_by_strict i p ->
   exists s,
     strict_score i p = Ok s
     /\ 0 <= s
     /\ (core_present (measurements_of p) "TEMP" = true -> 1 <= s))
  /\ (skipped_by_strict i p -> strict_score i p = Raise TypeError).
Proof.
  split; [| apply strict_score_skipped].
  intros H. destruct (strict_temporal_score_ok i p H) as [n [Hn Hpos]].
  unfold strict_score. rewrite Hn. unfold rbind.
  assert (0 <= bonus (is_generic_query i && _is_uploaded p) 10)
    by (apply bonus_nonneg; lia).
  assert (0 <= region_score 5 (query_lower i) (regions_of (geospatial_of p)))
    by (apply region_score_nonneg; lia).
  pose proof (strict_parameter_score_nonneg i (measurements_of p)).
  match goal with
  | |- context [if ?t =? 0 then _ else _] => destruct (t =? 0) eqn:E
  end.
  - eexists. split; [reflexivity |]. split.
    + apply bonus_nonneg. lia.
    + intros ->. simpl. lia.
  - apply Z.eqb_neq in E. eexists. split; [reflexivity |]. lia.
Qed.

Lemma strict_score_bounds_witness :
  exists s,
    strict_score intent_august_2023 profile_august_2022 = Ok s
    /\ 0 <= s
    /\ (core_present (measurements_of profile_august_2022) "TEMP" = true ->
        1 <= s).
Proof.
  apply (proj1 (strict_score_bounds intent_august_2023 profile_august_2022)).
  intros [_ [_ [_ H]]]. discriminate H.
Defined.

(** C3 (as stated) fails: the query "august 2023" names the year of a
    profile that has a temperature and no month; its scoring raises, so
    that it has no score and is in no result. *)
Lemma strict_score_skips_temperature_profile :
  extract "august 2023" = Ok intent_august_2023
  /\ core_present (measurements_of profile_without_month) "TEMP" = true
  /\ strict_score intent_august_2023 profile_without_month = Raise TypeError
  /\ fst (search_relevant_data "august 2023" [profile_without_month] [])
     = Ok [].
Proof. repeat split; vm_compute; reflexivity. Qed.

Lemma in_ints_some (k : Z) (l : list Z) :
  in_ints (Some k) l = true <-> In k l.
Proof.
  unfold in_ints. rewrite existsb_exists. split.
  - intros [n [Hn E]]. simpl in E. apply Z.eqb_eq in E. subst n. exact Hn.
  - intros H. exists k. split; [exact H | apply Z.eqb_refl].
Qed.

Lemma flexible_month_score_ok (months : list Z) (t : temporal_t) :
  month t <> None \/ months = [] ->
  exists n, flexible_month_score months t = Ok n.
Proof.
  unfold flexible_month_score. intros H.
  destruct months as [| m ms]; [exists 0; reflexivity |].
  destruct (month t) as [k |].
  - destruct (in_ints (Some k) (m :: ms)); [exists 6; reflexivity |].
    rewrite any_within_some. eexists. reflexivity.
  - destruct H as [H | H]; [contradiction | discriminate H].
Qed.

(** C8 (as amended). In the relaxed scorer without a specific date, take
    a profile that has a month, or a query that names none.  With a year
    of the query for its year it scores 4 more than with a year that is at
    distance 1 of every year of the query; so the latter score is strictly
    lower. *)
Theorem flexible_adjacent_year_lower (query_lower : string)
    (years : list string) (months target_years : list Z) (p : profile)
    (exact adjacent : Z) :
  target_years_of years = Ok target_years ->
  In exact target_years ->
  (forall y, In y target_years -> Z.abs (adjacent - y) = 1) ->
  month (temporal_of p) <> None \/ months = [] ->
  exists s_exact s_adjacent,
    flexible_score query_lower years months None (with_year exact p)
    = Ok s_exact
    /\ flexible_score query_lower years months None (with_year adjacent p)
       = Ok s_adjacent
    /\ s_exact = s_adjacent + 4
    /\ s_adjacent < s_exact.
Proof.
  intros Hyears Hexact Hadj Hmonth.
  destruct (flexible_month_score_ok months
              (temporal_of (with_year exact p)) Hmonth) as [n Hn].
  assert (flexible_month_score months (temporal_of (with_year adjacent p))
          = Ok n) as Hn' by exact Hn.
  assert (exists y ys, years = y :: ys) as [y0 [ys ->]].
  { destruct years as [| y0 ys]; [| eauto].
    simpl in Hyears. injection Hyears as <-. contradiction. }
  assert (in_ints (Some adjacent) target_years = false) as Hnot.
  { destruct (in_ints (Some adjacent) target_years) eqn:E; [| reflexivity].
    apply in_ints_some in E. specialize (Hadj _ E).
    rewrite Z.sub_diag in Hadj. discriminate Hadj. }
  assert (existsb (fun n => Z.abs (adjacent - n) <=? 1) target_years = true)
    as Hnear.
  { apply existsb_exists. exists exact. split; [exact Hexact |].
    apply Z.leb_le. rewrite (Hadj _ Hexact). lia. }
  unfold flexible_score. rewrite Hn, Hn'.
  unfold flexible_year_score. rewrite Hyears. unfold rbind.
  change (year (temporal_of (with_year exact p))) with (Some exact).
  change (year (temporal_of (with_year adjacent p))) with (Some adjacent).
  rewrite (proj2 (in_ints_some exact target_years) Hexact), Hnot.
  rewrite any_within_some, Hnear.
  do 2 eexists. split; [reflexivity |]. split; [reflexivity |].
  change (geospatial_of (with_year exact p)) with (geospatial_of p).
  change (geospatial_of (with_year adjacent p)) with (geospatial_of p).
  change (measurements_of (with_year exact p)) with (measurements_of p).
  change (measurements_of (with_year adjacent p)) with (measurements_of p).
  simpl bonus. lia.
Qed.

Lemma flexible_adjacent_year_lower_witness :
  exists s_exact s_adjacent,
    flexible_score "august 2021" ["2021"] [8; 8] None
      (with_year 2021 profile_august_2022) = Ok s_exact
    /\ flexible_score "august 2021" ["2021"] [8; 8] None
         (with_year 2020 profile_august_2022) = Ok s_adjacent
    /\ s_exact = s_adjacent + 4
    /\ s_adjacent < s_exact.
Proof.
  apply (flexible_adjacent_year_lower "august 2021" ["2021"] [8; 8] [2021]
           profile_august_2022 2021 2020).
  - reflexivity.
  - left. reflexivity.
  - intros y [<- | []]. reflexivity.
  - left. discriminate.
Defined.

(** C8 (as stated) fails: for the query "august 2021" and a profile
    without month, the relaxed scoring raises with the year 2021 and with
    the year 2020; neither has a score. *)
Lemma flexible_score_skips_both_years :
  target_years_of ["2021"] = Ok [2021]
  /\ flexible_score "august 2021" ["2021"] [8; 8] None
       (with_year 2021 profile_without_month) = Raise TypeError
  /\ flexible_score "august 2021" ["2021"] [8; 8] None
       (with_year 2020 profile_without_month) = Raise TypeError
  /\ rank (flexible_score "august 2021" ["2021"] [8; 8] None)
       [with_year 2021 profile_without_month;
        with_year 2020 profile_without_month] = [].
Proof. repeat split; vm_compute; reflexivity. Qed.

(** ** The stable sort by score *)

Lemma insert_perm (x : scored) (l : list scored) :
  Permutation (insert higher x l) (x :: l).
Proof.
  induction l as [| y l IH]; simpl.
  - apply Permutation_refl.
  - destruct (higher y x).
    + apply perm_trans with (y :: x :: l).
      * apply perm_skip. exact IH.
      * apply perm_swap.
    + apply Permutation_refl.
Qed.

Lemma sort_perm (l : list scored) : Permutation (sort l) l.
Proof.
  unfold sort. induction l as [| x l IH]; simpl.
  - apply perm_nil.
  - apply perm_trans with (x :: sorted higher l).
    + apply insert_perm.
    + apply perm_skip. exact IH.
Qed.

Lemma insert_sorted (x : scored) (l : list scored) :
  StronglySorted score_ge l -> StronglySorted score_ge (insert higher x l).
Proof.
  induction 1 as [| y l Hl IH Hy]; simpl.
  - constructor; constructor.
  - unfold higher at 1. destruct (snd x <? snd y) eqn:E.
    + apply Z.ltb_lt in E. constructor.
      * exact IH.
      * apply (Permutation_Forall (Permutation_sym (insert_perm x l))).
        constructor; [unfold score_ge; lia | exact Hy].
    + apply Z.ltb_ge in E. constructor.
      * constructor; assumption.
      * constructor; [exact E |].
        apply Forall_impl with (P := score_ge y); [| exact Hy].
        unfold score_ge. intros; lia.
Qed.

Lemma sort_sorted (l : list scored) : StronglySorted score_ge (sort l).
Proof.
  unfold sort. induction l as [| x l IH]; simpl.
  - constructor.
  - apply insert_sorted. exact IH.
Qed.

Lemma filter_insert (s : Z) (x : scored) (l : list scored) :
  filter (has_score s) (insert higher x l) = filter (has_score s) (x :: l).
Proof.
  induction l as [| y l IH]; [reflexivity |].
  simpl insert. unfold higher at 1. destruct (snd x <? snd y) eqn:E.
  - apply Z.ltb_lt in E. simpl in *. rewrite IH.
    unfold has_score.
    destruct (snd y =? s) eqn:Ey; destruct (snd x =? s) eqn:Ex;
      try reflexivity.
    apply Z.eqb_eq in Ey, Ex. lia.
  - reflexivity.
Qed.

(** Stability: the entries of one score are in the order they had. *)
Lemma sort_stable (s : Z) (l : list scored) :
  filter (has_score s) (sort l) = filter (has_score s) l.
Proof.
  unfold sort. induction l as [| x l IH]; [reflexivity |].
  simpl sorted. rewrite filter_insert. simpl. rewrite IH. reflexivity.
Qed.

Lemma sort_nil_iff (l : list scored) : sort l = [] <-> l = [].
Proof.
  split; intros H.
  - pose proof (sort_perm l) as P. rewrite H in P.
    apply Permutation_nil in P. exact P.
  - subst l. reflexivity.
Qed.

(** What [score_all] keeps. *)
Lemma in_score_all (score : profile -> result Z) (argo_data : list profile)
    (e : scored) :
  In e (score_all score argo_data) <->
  In (fst e) argo_data /\ score (fst e) = Ok (snd e) /\ 0 < snd e.
Proof.
  unfold score_all. rewrite in_flat_map. split.
  - intros [p [Hp He]]. unfold keep in He.
    destruct (score p) as [s | x] eqn:Es; [| contradiction].
    destruct (s >? 0) eqn:Epos; [| contradiction].
    destruct He as [He | []]. subst e. simpl.
    repeat split; [assumption | assumption |].
    apply Z.gtb_lt in Epos. exact Epos.
  - intros [Hin [Hs Hpos]]. exists (fst e). split; [exact Hin |].
    unfold keep. rewrite Hs.
    assert ((snd e >? 0) = true) as -> by (apply Z.gtb_lt; exact Hpos).
    left. destruct e; reflexivity.
Qed.

Lemma score_all_nil_iff (score : profile -> result Z)
    (argo_data : list profile) :
  score_all score argo_data = [] <->
  forall p s, In p argo_data -> score p = Ok s -> s <= 0.
Proof.
  split.
  - intros H p s Hin Hs.
    destruct (Z_le_gt_dec s 0) as [Hle | Hgt]; [exact Hle | exfalso].
    assert (In (p, s) (score_all score argo_data)) as Hmem.
    { apply in_score_all. simpl. repeat split; [assumption | assumption | lia]. }
    rewrite H in Hmem. exact Hmem.
  - intros H. destruct (score_all score argo_data) as [| e l] eqn:E;
      [reflexivity | exfalso].
    assert (In e (score_all score argo_data)) as Hmem
      by (rewrite E; left; reflexivity).
    apply in_score_all in Hmem. destruct Hmem as [Hin [Hs Hpos]].
    specialize (H _ _ Hin Hs). lia.
Qed.

(** ** Ranking *)

Lemma filter_score_all (score : profile -> result Z) (s : Z)
    (argo_data : list profile) :
  0 < s ->
  map fst (filter (has_score s) (score_all score argo_data))
  = filter (scores_as score s) argo_data.
Proof.
  intros Hs. unfold score_all.
  induction argo_data as [| p l IH]; [reflexivity |].
  change (flat_map (keep score) (p :: l))
    with (keep score p ++ flat_map (keep score) l)%list.
  rewrite filter_app, map_app.
  transitivity (map fst (filter (has_score s) (keep score p))
                ++ filter (scores_as score s) l)%list;
    [f_equal; exact IH |].
  cbn [filter]. unfold keep, scores_as. destruct (score p) as [s' | e]; [| reflexivity].
  destruct (s' >? 0) eqn:Epos.
  - cbn [filter]. unfold has_score. cbn [snd].
    destruct (s' =? s); reflexivity.
  - assert ((s' =? s) = false) as ->; [| reflexivity].
    apply Z.eqb_neq. intros ->.
    rewrite (proj2 (Z.gtb_lt s 0) Hs) in Epos. discriminate Epos.
Qed.

Lemma rank_ranked (score : profile -> result Z) (argo_data : list profile) :
  ranked_by score argo_data (top15 (rank score argo_data)).
Proof.
  exists (rank score argo_data). unfold top15, rank.
  split; [reflexivity |]. split.
  { rewrite length_map. apply firstn_le_length. }
  split.
  { apply Forall_forall. intros e He. apply in_score_all.
    apply (Permutation_in e (sort_perm _)). exact He. }
  split; [apply sort_sorted |].
  intros s Hs. rewrite sort_stable. apply filter_score_all. exact Hs.
Qed.

(** C4. The relaxed search returns a ranking by the relaxed score, and
    the search returns a ranking by the score of the pass that gives its
    result, the strict or the relaxed one: only profiles of positive
    score, a higher score first, equal scores in the order of the data, at
    most 15 of them.  The search raises only when the extraction of the
    query does. *)
Theorem ranking_contract (query : string) (argo_data : list profile)
    (log : list notice) :
  (forall years months specific_date,
     exists out,
       search_relevant_data_flexible query argo_data years months
         specific_date log = (Ok out, log)
       /\ ranked_by
            (flexible_score (Str.lower query) years months specific_date)
            argo_data out)
  /\ match extract query with
     | Ok i =>
         exists out log',
           search_relevant_data query argo_data log = (Ok out, log')
           /\ (ranked_by (strict_score i) argo_data out
               \/ ranked_by
                    (flexible_score (Str.lower query) (years_in_query i)
                       (months_in_query i) (specific_date i))
                    argo_data out)
     | Raise e => search_relevant_data query argo_data log = (Raise e, log)
     end.
Proof.
  split.
  - intros years months sd. eexists. split; [reflexivity |].
    apply rank_ranked.
  - unfold search_relevant_data, bind, lift.
    destruct (extract query) as [i | e]; [| reflexivity].
    unfold ret at 1.
    destruct (escalates i (rank (strict_score i) argo_data)).
    + destruct (specific_date i) as [sd |]; unfold info;
        do 2 eexists; (split; [reflexivity |]); right; apply rank_ranked.
    + do 2 eexists. split; [reflexivity |]. left. apply rank_ranked.
Qed.

(** ** Escalation *)

Lemma rank_nil_iff (score : profile -> result Z) (argo_data : list profile) :
  rank score argo_data = [] <-> none_positive score argo_data.
Proof.
  unfold rank. rewrite sort_nil_iff. apply score_all_nil_iff.
Qed.

Lemma signal_iff (i : intent) :
  (nonempty (years_in_query i) || nonempty (months_in_query i)
   || is_some (specific_date i)) = true <-> temporal_signal i.
Proof.
  unfold temporal_signal.
  destruct (years_in_query i), (months_in_query i), (specific_date i);
    simpl; split; intros H;
    try reflexivity; try discriminate H;
    try (left; discriminate); try (right; left; discriminate);
    try (right; right; discriminate).
  destruct H as [H | [H | H]]; contradiction.
Qed.

Lemma search_escalating (query : string) (argo_data : list profile)
    (log : list notice) (i : intent) :
  extract query = Ok i ->
  escalates i (rank (strict_score i) argo_data) = true ->
  search_relevant_data query argo_data log
  = search_relevant_data_flexible query argo_data (years_in_query i)
      (months_in_query i) (specific_date i) (log ++ [fallback_notice i])%list.
Proof.
  intros Hi He. unfold search_relevant_data, bind, lift. rewrite Hi.
  unfold ret at 1. rewrite He. unfold fallback_notice.
  destruct (specific_date i); reflexivity.
Qed.

Lemma search_not_escalating (query : string) (argo_data : list profile)
    (log : list notice) (i : intent) :
  extract query = Ok i ->
  escalates i (rank (strict_score i) argo_data) = false ->
  search_relevant_data query argo_data log
  = (Ok (top15 (rank (strict_score i) argo_data)), log).
Proof.
  intros Hi He. unfold search_relevant_data, bind, lift. rewrite Hi.
  unfold ret at 1. rewrite He. reflexivity.
Qed.

(** C5. For a query whose extraction gives the intent [i]: when no
    profile has a positive strict score and the query carries a temporal
    signal, the search shows one notice and is the relaxed search; when
    none has a positive strict score and there is no signal, it returns
    the empty list and shows nothing; when some profile has a positive
    strict score, it returns a non-empty list and shows nothing, so that
    the relaxed search was not called; and when the relaxed pass finds no
    positive score either, the empty list is returned after the one
    notice. *)
Theorem escalation_contract (query : string) (argo_data : list profile)
    (log : list notice) (i : intent) :
  extract query = Ok i ->
  let relaxed_score :=
    flexible_score (Str.lower query) (years_in_query i) (months_in_query i)
      (specific_date i) in
  (none_positive (strict_score i) argo_data -> temporal_signal i ->
   search_relevant_data query argo_data log
   = search_relevant_data_flexible query argo_data (years_in_query i)
       (months_in_query i) (specific_date i)
       (log ++ [fallback_notice i])%list)
  /\ (none_positive (strict_score i) argo_data -> ~ temporal_signal i ->
      search_relevant_data query argo_data log = (Ok [], log))
  /\ ((exists p s, In p argo_data /\ strict_score i p = Ok s /\ 0 < s) ->
      exists p out,
        search_relevant_data query argo_data log = (Ok (p :: out), log))
  /\ (none_positive (strict_score i) argo_data -> temporal_signal i ->
      none_positive relaxed_score argo_data ->
      search_relevant_data query argo_data log
      = (Ok [], (log ++ [fallback_notice i])%list)).
Proof.
  intros Hi relaxed_score.
  assert (none_positive (strict_score i) argo_data ->
            escalates i (rank (strict_score i) argo_data)
            = (nonempty (years_in_query i) || nonempty (months_in_query i)
               || is_some (specific_date i))) as Hesc.
  { intros Hnone. apply rank_nil_iff in Hnone. unfold escalates.
    rewrite Hnone. reflexivity. }
  split; [| split; [| split]].
  - intros Hnone Hsig. apply search_escalating; [exact Hi |].
    rewrite (Hesc Hnone). apply signal_iff. exact Hsig.
  - intros Hnone Hsig. rewrite (search_not_escalating _ _ _ i Hi).
    + apply rank_nil_iff in Hnone. rewrite Hnone. reflexivity.
    + rewrite (Hesc Hnone).
      destruct (nonempty (years_in_query i) || nonempty (months_in_query i)
                || is_some (specific_date i)) eqn:E; [| reflexivity].
      exfalso. apply Hsig. apply signal_iff. exact E.
  - intros [p [s [Hin [Hs Hpos]]]].
    assert (rank (strict_score i) argo_data <> []) as Hne.
    { intros E. apply rank_nil_iff in E. specialize (E p s Hin Hs). lia. }
    rewrite (search_not_escalating _ _ _ i Hi).
    + destruct (rank (strict_score i) argo_data) as [| e l];
        [contradiction |].
      do 2 eexists. reflexivity.
    + unfold escalates.
      destruct (rank (strict_score i) argo_data); [contradiction |].
      reflexivity.
  - intros Hnone Hsig Hrelaxed.
    rewrite (search_escalating _ _ _ i Hi).
    + unfold search_relevant_data_flexible, ret.
      apply rank_nil_iff in Hrelaxed. fold relaxed_score.
      rewrite Hrelaxed. reflexivity.
    + rewrite (Hesc Hnone). apply signal_iff. exact Hsig.
Qed.

Lemma escalation_contract_witness :
  search_relevant_data "august 2021" [profile_august_2020] []
  = search_relevant_data_flexible "august 2021" [profile_august_2020]
      ["2021"] [8; 8] None [Expanding].
Proof.
  apply (proj1 (escalation_contract "august 2021" [profile_august_2020] []
                  (mkIntent "august 2021" ["2021"] [8; 8] None false)
                  eq_refl)).
  - intros p s [<- | []] Hs. vm_compute in Hs. injection Hs as <-. lia.
  - right. left. discriminate.
Defined.

(** ** The text of a summary *)

Lemma first_char_app (c : ascii) (a b : string) :
  first_char a = Some c -> first_char (a ++ b) = Some c.
Proof.
  destruct a as [| x a]; simpl; intros H; [discriminate H | exact H].
Qed.

Lemma first_char_join (sep : string) (c : ascii) (x : string)
    (l : list string) :
  first_char x = Some c -> first_char (Str.join sep (x :: l)) = Some c.
Proof.
  intros H. destruct l as [| y l]; simpl.
  - exact H.
  - apply first_char_app. exact H.
Qed.

Lemma first_char_profile_info (p : profile) (s : string) :
  profile_info p = Ok s -> first_char s = Some "R"%char.
Proof.
  unfold profile_info. intros H.
  bind_ok H as mm _.
  bind_ok H as dd _.
  injection H as <-. reflexivity.
Qed.

Lemma first_char_comparison_info (q : string) (b : bool) (y : option Z)
    (p : profile) :
  first_char (comparison_info q b y p) = Some "R"%char.
Proof. reflexivity. Qed.

Lemma map_result_forall {A B : Type} (f : A -> result B) (P : B -> Prop)
    (l : list A) (out : list B) :
  (forall x y, f x = Ok y -> P y) -> map_result f l = Ok out -> Forall P out.
Proof.
  intros Hf. revert out. induction l as [| x l IH]; simpl; intros out H.
  - injection H as <-. constructor.
  - bind_ok H as y Hy.
    bind_ok H as ys Hys.
    injection H as <-. constructor; [eapply Hf; exact Hy | apply IH; exact Hys].
Qed.

Lemma temporal_range_head (profiles : list profile) :
  Forall (fun s => first_char s = Some "T"%char) (temporal_range profiles).
Proof.
  unfold temporal_range.
  destruct (1 <? List.length (group_by_time profiles))%nat; constructor.
  - reflexivity.
  - constructor.
Qed.

(** A summary of some profiles is empty or starts a segment. *)
Lemma summary_head (profiles : list profile) (query out : string) :
  profiles <> [] ->
  create_context_summary profiles query = Ok out ->
  out = "" \/ first_char out = Some "T"%char \/ first_char out = Some "R"%char.
Proof.
  intros Hne H. unfold create_context_summary in H.
  destruct profiles as [| p0 ps]; [contradiction |].
  bind_ok H as parts Hparts.
  injection H as <-.
  assert (Forall (fun s => first_char s = Some "R"%char) parts) as HR.
  { destruct (any_in comparison_keywords (Str.lower query)
              && nonempty (years_of query)).
    - bind_ok Hparts as keys _.
      injection Hparts as <-. apply Forall_forall. intros s Hs.
      apply in_flat_map in Hs. destruct Hs as [y [_ Hs]].
      apply in_map_iff in Hs. destruct Hs as [p [<- _]].
      apply first_char_comparison_info.
    - eapply map_result_forall; [| exact Hparts].
      intros x y. apply first_char_profile_info. }
  pose proof (temporal_range_head (p0 :: ps)) as HT.
  destruct (temporal_range (p0 :: ps)) as [| r rs].
  - destruct parts as [| s parts]; [left; reflexivity |].
    right. right. apply first_char_join.
    inversion HR; assumption.
  - right. left. simpl app. apply first_char_join.
    inversion HT; assumption.
Qed.

Lemma group_by_year_none (years : list string) (profiles : list profile) :
  (forall p, In p profiles ->
     in_strs (str_of (year (temporal_of p))) years = false) ->
  forall d,
    fold_left (fun profiles_by_year p =>
                 let year := year (temporal_of p) in
                 if in_strs (str_of year) years
                 then group_add eq_year year p profiles_by_year
                 else profiles_by_year)
              profiles d = d.
Proof.
  induction profiles as [| p ps IH]; intros H d; simpl.
  - reflexivity.
  - rewrite (H p (or_introl eq_refl)). apply IH.
    intros q Hq. apply H. right. exact Hq.
Qed.

Lemma group_by_time_single (y m : Z) (profiles : list profile) :
  (forall p, In p profiles ->
     year (temporal_of p) = Some y /\ month (temporal_of p) = Some m) ->
  (List.length (group_by_time profiles) <= 1)%nat.
Proof.
  intros H. unfold group_by_time.
  assert (forall d : list (string * list profile),
            d = [] \/ (exists ps, d = [(time_key y m, ps)]) ->
            let d' :=
              fold_left (fun profiles_by_time p =>
                 let year := year (temporal_of p) in
                 let month := month (temporal_of p) in
                 match year, month with
                 | Some y, Some m =>
                     if truthy year && truthy month
                     then group_add String.eqb (time_key y m) p
                            profiles_by_time
                     else profiles_by_time
                 | _, _ => profiles_by_time
                 end) profiles d in
            d' = [] \/ (exists ps, d' = [(time_key y m, ps)])) as Hinv.
  { induction profiles as [| p ps IH]; intros d Hd; simpl.
    - exact Hd.
    - destruct (H p (or_introl eq_refl)) as [Hy Hm].
      apply IH.
      + intros q Hq. apply H. right. exact Hq.
      + rewrite Hy, Hm.
        destruct (truthy (Some y) && truthy (Some m)); [| exact Hd].
        right. destruct Hd as [-> | [ps0 ->]]; simpl.
        * eexists. reflexivity.
        * rewrite String.eqb_refl. eexists. reflexivity. }
  pose proof (Hinv [] (or_introl eq_refl)) as Hd. cbv zeta in Hd.
  destruct Hd as [E | [ps E]]; rewrite E; simpl; lia.
Qed.

(** ** When the summarizer returns *)

Lemma group_add_keys {K : Type} (eqb : K -> K -> bool) (P : K -> Prop)
    (key : K) (p : profile) (d : list (K * list profile)) :
  P key -> Forall P (map fst d) -> Forall P (map fst (group_add eqb key p d)).
Proof.
  intros Hk. induction d as [| [k ps] d IH]; simpl; intros Hd.
  - constructor; [exact Hk | constructor].
  - inversion Hd as [| ? ? Hk0 Hd']; subst.
    destruct (eqb key k); simpl; constructor; auto.
Qed.

Lemma group_by_year_keys (years : list string) (profiles : list profile) :
  Forall (fun k => in_strs (str_of k) years = true)
         (map fst (group_by_year years profiles)).
Proof.
  unfold group_by_year.
  assert (forall d : list (option Z * list profile),
            Forall (fun k => in_strs (str_of k) years = true) (map fst d) ->
            Forall (fun k => in_strs (str_of k) years = true)
              (map fst
                 (fold_left
                    (fun profiles_by_year p =>
                       let year := year (temporal_of p) in
                       if in_strs (str_of year) years
                       then group_add eq_year year p profiles_by_year
                       else profiles_by_year)
                    profiles d))) as H.
  { induction profiles as [| p ps IH]; intros d Hd; simpl; [exact Hd |].
    apply IH.
    destruct (in_strs (str_of (year (temporal_of p))) years) eqn:E;
      [| exact Hd].
    apply group_add_keys; assumption. }
  apply H. constructor.
Qed.

Lemma sorted_years_ok (query : string) (profiles : list profile) :
  exists keys,
    sorted_years (map fst (group_by_year (years_of query) profiles)) = Ok keys.
Proof.
  unfold sorted_years.
  assert (forallb is_some
            (map fst (group_by_year (years_of query) profiles)) = true) as ->.
  { apply forallb_forall. intros k Hk.
    pose proof (group_by_year_keys (years_of query) profiles) as H.
    rewrite Forall_forall in H. specialize (H k Hk).
    destruct k as [y |]; [reflexivity |].
    simpl in H. rewrite none_not_a_year in H. discriminate H. }
  eexists. reflexivity.
Qed.

Lemma map_result_ok {A B : Type} (f : A -> result B) (l : list A) :
  (forall x, In x l -> exists y, f x = Ok y) ->
  exists ys, map_result f l = Ok ys.
Proof.
  induction l as [| x l IH]; intros H; simpl.
  - eexists. reflexivity.
  - destruct (H x (or_introl eq_refl)) as [y ->].
    destruct IH as [ys ->]; [intros z Hz; apply H; right; exact Hz |].
    eexists. reflexivity.
Qed.

(** The summarizer returns a text when the first ten profiles have a
    month and a day. *)
Lemma summary_returns (profiles : list profile) (query : string) :
  (forall p, In p (firstn 10 profiles) ->
     month (temporal_of p) <> None /\ day (temporal_of p) <> None) ->
  exists text, create_context_summary profiles query = Ok text.
Proof.
  intros H. unfold create_context_summary.
  destruct profiles as [| p0 ps]; [eexists; reflexivity |].
  destruct (any_in comparison_keywords (Str.lower query)
            && nonempty (years_of query)).
  - destruct (sorted_years_ok query (p0 :: ps)) as [keys ->].
    eexists. reflexivity.
  - destruct (map_result_ok profile_info (firstn 10 (p0 :: ps))) as [ys ->].
    + intros p Hp. destruct (H p Hp) as [Hm Hd]. unfold profile_info.
      destruct (month (temporal_of p)) as [m |]; [| contradiction].
      destruct (day (temporal_of p)) as [d |]; [| contradiction].
      eexists. reflexivity.
    + eexists. reflexivity.
Qed.

Lemma map_result_raise {A B : Type} (f : A -> result B) (e : exn)
    (l : list A) :
  (forall x e', f x = Raise e' -> e' = e) ->
  (exists x, In x l /\ f x = Raise e) ->
  map_result f l = Raise e.
Proof.
  intros Hf. induction l as [| x l IH]; intros [z [Hz Hr]].
  - contradiction.
  - simpl. destruct (f x) as [y | e'] eqn:E.
    + destruct Hz as [-> | Hz]; [rewrite Hr in E; discriminate E |].
      simpl. rewrite IH; [reflexivity | eauto].
    + simpl. f_equal. eapply Hf. exact E.
Qed.

(** Outside a comparison, it raises when one of them has no month or no
    day. *)
Lemma summary_raises (profiles : list profile) (query : string) :
  any_in comparison_keywords (Str.lower query) && nonempty (years_of query)
  = false ->
  (exists p, In p (firstn 10 profiles)
             /\ (month (temporal_of p) = None \/ day (temporal_of p) = None)) ->
  create_context_summary profiles query = Raise TypeError.
Proof.
  intros Hcmp [p [Hp Hnone]]. unfold create_context_summary.
  destruct profiles as [| p0 ps]; [contradiction |].
  rewrite Hcmp.
  rewrite (map_result_raise profile_info TypeError); [reflexivity | |].
  - intros x e. unfold profile_info.
    destruct (month (temporal_of x)); [| intros [= <-]; reflexivity].
    destruct (day (temporal_of x)); [discriminate | intros [= <-]; reflexivity].
  - exists p. split; [exact Hp |]. unfold profile_info.
    destruct (month (temporal_of p)); [| reflexivity].
    destruct Hnone as [Hnone | ->]; [discriminate Hnone | reflexivity].
Qed.

(** ** The summarizer *)

(** C7. For every query, the summary of the empty profile list is the
    fixed no-data sentence. *)
Theorem summary_of_no_profiles (query : string) :
  create_context_summary [] query
  = Ok "No relevant data found in the specified time period.".
Proof. reflexivity. Qed.

(** C2. The summarizer is not total: the strict search returns a profile
    that has a temperature and no month for the query "temperature", and
    the summary of that result raises a [TypeError]. *)
Theorem summary_raises_without_month :
  search_relevant_data "temperature" [profile_without_month] []
  = (Ok [profile_without_month], [])
  /\ create_context_summary [profile_without_month] "temperature"
     = Raise TypeError.
Proof. split; vm_compute; reflexivity. Qed.

(** C10. Only the empty list is summarized by the no-data sentence; the
    summary of profiles of one year and month, for a comparison query
    whose years are the year of none of them, is the empty string. *)
Theorem summary_of_unmatched_comparison :
  (forall profiles query,
     create_context_summary profiles query = Ok sentinel -> profiles = [])
  /\ (forall profiles query y m,
        profiles <> [] ->
        (forall p, In p profiles ->
           year (temporal_of p) = Some y /\ month (temporal_of p) = Some m) ->
        any_in comparison_keywords (Str.lower query) = true ->
        years_of query <> [] ->
        in_strs (Str.of_Z y) (years_of query) = false ->
        create_context_summary profiles query = Ok "").
Proof.
  split.
  - intros profiles query H.
    destruct profiles as [| p ps]; [reflexivity | exfalso].
    apply summary_head in H; [| discriminate].
    destruct H as [H | [H | H]]; discriminate H.
  - intros profiles query y m Hne Hym Hcmp Hyears Hnone.
    unfold create_context_summary.
    destruct profiles as [| p0 ps]; [contradiction |].
    rewrite Hcmp.
    assert (nonempty (years_of query) = true) as ->
      by (destruct (years_of query); [contradiction | reflexivity]).
    unfold temporal_range.
    assert ((1 <? List.length (group_by_time (p0 :: ps)))%nat = false) as ->.
    { apply Nat.ltb_ge. eapply group_by_time_single. exact Hym. }
    unfold group_by_year. rewrite group_by_year_none; [reflexivity |].
    intros p Hp. destruct (Hym p Hp) as [-> _]. exact Hnone.
Qed.

Lemma summary_of_unmatched_comparison_witness :
  create_context_summary [profile_august_2022] "compare with 2021" = Ok "".
Proof.
  apply (proj2 summary_of_unmatched_comparison
           [profile_august_2022] "compare with 2021" 2022 8).
  - discriminate.
  - intros p [<- | []]. split; reflexivity.
  - reflexivity.
  - vm_compute. discriminate.
  - reflexivity.
Defined.

(** * Further properties *)

(** ** Outcomes of the extraction *)

Lemma specific_date_cases (query : string) :
  match specific_date_of query with
  | Ok (Some d) =>
      date_in_range d
      /\ (Re.search pattern_day_month_year (Str.lower query) <> None ->
          1 <= d_month d <= 12)
  | Ok None => True
  | Raise _ => month_first query
  end.
Proof.
  unfold specific_date_of, date_patterns, month_first.
  cbn [find_specific_date].
  destruct (Re.search pattern_day_month_year (Str.lower query)) as [g |] eqn:E1.
  { apply search_groups in E1. destruct E1 as [p [m [E1 <-]]].
    apply day_month_year_groups in E1.
    destruct E1 as [d [name [y [-> [Hd [Hname Hy]]]]]].
    destruct (date_of_day_month_year d name y Hd Hname Hy)
      as [dt [-> [Hr Hm]]].
    cbn. split; [exact Hr | intros _; exact Hm]. }
  destruct (Re.search pattern_month_day_year (Str.lower query)) as [g |] eqn:E2.
  { assert (Some g <> None) as Hne by discriminate. rewrite <- E2 in Hne.
    destruct (month_first_date_raises query E1 Hne) as [Hsd _].
    unfold specific_date_of, date_patterns in Hsd.
    cbn [find_specific_date] in Hsd. rewrite E1, E2 in Hsd. rewrite Hsd.
    split; [reflexivity | discriminate]. }
  destruct (Re.search pattern_iso (Str.lower query)) as [g |] eqn:E3;
    [| exact I].
  apply search_groups in E3. destruct E3 as [p [m [E3 <-]]].
  apply iso_groups in E3. destruct E3 as [y [a [b [-> [Hy [Ha Hb]]]]]].
  destruct (date_of_iso y a b Hy Ha Hb) as [dt [-> Hr]].
  cbn. split; [exact Hr | intros H; contradiction].
Qed.

Lemma months_of_ok (q : string) (years : list string) (sd : option date) :
  (forall g, Re.search last_months_pattern q = Some g ->
     Z.of_nat (String.length (group g 0)) <= Str.max_str_digits) ->
  exists months, months_of q years sd = Ok months.
Proof.
  unfold months_of. intros Hlong.
  destruct (Re.search last_months_pattern q) as [g |] eqn:E;
    [| eexists; reflexivity].
  specialize (Hlong g eq_refl).
  apply search_groups in E. destruct E as [p [m [E <-]]].
  apply last_months_groups in E. destruct E as [n [Eg [Hn Hlen]]].
  rewrite Eg in *. cbn [group nth] in *.
  rewrite (int_of_number n Hn Hlen Hlong). cbn [rbind].
  destruct years; eexists; reflexivity.
Qed.

Lemma months_of_long (q : string) (years : list string) (sd : option date)
    (g : list string) :
  Re.search last_months_pattern q = Some g ->
  Str.max_str_digits < Z.of_nat (String.length (group g 0)) ->
  months_of q years sd = Raise ValueError.
Proof.
  unfold months_of. intros -> Hlong.
  rewrite (int_too_long _ Hlong). reflexivity.
Qed.

Lemma extract_cases (query : string) :
  match extract query with
  | Ok _ => ~ month_first query /\ ~ long_count query
  | Raise e => e = ValueError /\ (month_first query \/ long_count query)
  end.
Proof.
  pose proof (specific_date_cases query) as H. unfold extract.
  destruct (specific_date_of query) as [sd | e] eqn:E.
  - cbn [rbind].
    assert (~ month_first query) as Hnot.
    { intros [H1 H2].
      destruct (month_first_date_raises query H1 H2) as [Hsd _].
      rewrite Hsd in E. discriminate E. }
    destruct (Re.search last_months_pattern (Str.lower query)) as [g |] eqn:El.
    + destruct (Z.ltb_spec Str.max_str_digits
                  (Z.of_nat (String.length (group g 0)))) as [Hlong | Hshort].
      * rewrite (months_of_long _ _ _ g El Hlong). cbn [rbind].
        split; [reflexivity |]. right. exists g. split; assumption.
      * destruct (months_of_ok (Str.lower query) (years_of query) sd)
          as [months ->].
        { intros g' Eg'. rewrite El in Eg'. injection Eg' as <-. exact Hshort. }
        cbn [rbind]. split; [exact Hnot |].
        intros [g' [Eg' Hlong]]. rewrite El in Eg'. injection Eg' as <-. lia.
    + destruct (months_of_ok (Str.lower query) (years_of query) sd)
        as [months ->].
      { intros g' Eg'. rewrite El in Eg'. discriminate Eg'. }
      cbn [rbind]. split; [exact Hnot |].
      intros [g' [Eg' _]]. rewrite El in Eg'. discriminate Eg'.
  - cbn [rbind]. split; [| left; exact H].
    destruct H as [H1 H2].
    destruct (month_first_date_raises query H1 H2) as [Hsd _].
    rewrite Hsd in E. injection E as <-. reflexivity.
Qed.

(** X1. The search raises exactly when the first date of the query is
    written with the month first (no date with the day first is found and
    one with the month first is), or the query has the words "last N
    months" with N written in more digits than [int] converts: it then
    raises a [ValueError] and shows nothing; for every other query it
    returns a list. *)
Theorem search_raises_iff (query : string) (argo_data : list profile)
    (log : list notice) :
  (month_first query \/ long_count query ->
   search_relevant_data query argo_data log = (Raise ValueError, log))
  /\ (~ month_first query -> ~ long_count query ->
      exists out log',
        search_relevant_data query argo_data log = (Ok out, log')).
Proof.
  pose proof (extract_cases query) as H.
  unfold search_relevant_data, bind, lift.
  destruct (extract query) as [i | e].
  - destruct H as [Hm Hl].
    split; [intros [N | N]; contradiction |]. intros _ _. unfold ret at 1.
    destruct (escalates i (rank (strict_score i) argo_data)).
    + destruct (specific_date i); unfold info; do 2 eexists; reflexivity.
    + do 2 eexists. reflexivity.
  - destruct H as [-> H]. split; [reflexivity |].
    intros Nm Nl. destruct H; contradiction.
Qed.

Lemma search_raises_iff_witness :
  search_relevant_data "salinity on August 15 2023" [] []
  = (Raise ValueError, [])
  /\ search_relevant_data ("last " ++ Str.zeros 4301 ++ " months") [] []
     = (Raise ValueError, [])
  /\ exists out log',
       search_relevant_data "salinity on 15 August 2023" [] []
       = (Ok out, log').
Proof.
  split; [| split].
  - apply (proj1 (search_raises_iff "salinity on August 15 2023" [] [])).
    left. split; vm_compute; [reflexivity | discriminate].
  - apply (proj1 (search_raises_iff
                    ("last " ++ Str.zeros 4301 ++ " months") [] [])).
    right. exists [Str.zeros 4301]. split; vm_compute; reflexivity.
  - apply (proj2 (search_raises_iff "salinity on 15 August 2023" [] [])).
    + intros [H _]. vm_compute in H. discriminate H.
    + intros [g [H _]]. vm_compute in H. discriminate H.
Defined.

(** X2. A specific date that is extracted has a year from 2000 to 2099
    and a month and a day from 0 to 99, which nothing checks against the
    calendar ("2023-13-45" gives month 13, day 45); the month is from 1 to
    12 when the date is written with a month name. *)
Theorem specific_date_bounds (query : string) (d : date) :
  specific_date_of query = Ok (Some d) ->
  2000 <= d_year d <= 2099
  /\ 0 <= d_month d <= 99
  /\ 0 <= d_day d <= 99
  /\ (Re.search pattern_day_month_year (Str.lower query) <> None ->
      1 <= d_month d <= 12).
Proof.
  intros H. pose proof (specific_date_cases query) as C. rewrite H in C.
  destruct C as [[Hy [Hm Hd]] Hname]. repeat split; try lia; apply Hname; auto.
Qed.

Lemma specific_date_bounds_witness :
  2000 <= 2023 <= 2099 /\ 0 <= 13 <= 99 /\ 0 <= 45 <= 99
  /\ (Re.search pattern_day_month_year (Str.lower "on 2023-13-45") <> None ->
      1 <= 13 <= 12).
Proof.
  apply (specific_date_bounds "on 2023-13-45" (mkDate 2023 13 45)).
  reflexivity.
Defined.

Lemma year_pattern_groups (p : Re.pos) (m : Re.found) :
  Re.match_at year_pattern p = Some m ->
  is_year_text (hd EmptyString (Re.groups m)).
Proof.
  unfold Re.match_at, year_pattern. cbn [Re.run]. intros H.
  destruct (xorb (Re.word_before p) (Re.word_after p)); [| discriminate H].
  apply year_group_text in H. destruct H as [y [p1 [Hy H]]].
  destruct (xorb (Re.word_before p1) (Re.word_after p1)); [| discriminate H].
  injection H as <-. exact Hy.
Qed.

Lemma years_of_texts (query : string) :
  Forall is_year_text (years_of query).
Proof. apply findall_from_forall. apply year_pattern_groups. Qed.

Lemma target_years_of_texts (years : list string) :
  Forall is_year_text years ->
  exists l,
    target_years_of years = Ok l
    /\ Forall (fun n => 2000 <= n <= 2099) l
    /\ List.length l = List.length years.
Proof.
  induction 1 as [| y years Hy _ IH].
  - exists []. repeat split. constructor.
  - destruct (year_text_int y Hy) as [n [En Bn]].
    destruct IH as [l [El [Bl Ll]]].
    exists (n :: l). cbn [target_years_of]. rewrite En, El.
    repeat split; [constructor; assumption | simpl; lia].
Qed.

(** X3. Every year found in a query is read by [int] as a number
    from 2000 to 2099: the conversion at the head of the relaxed year tier
    does not fail on the years that the search passes to it. *)
Theorem years_of_query_convert (query : string) :
  exists target_years,
    target_years_of (years_of query) = Ok target_years
    /\ Forall (fun n => 2000 <= n <= 2099) target_years
    /\ List.length target_years = List.length (years_of query).
Proof. apply target_years_of_texts. apply years_of_texts. Qed.

Lemma months_named_range (q : string) :
  Forall (fun m => 1 <= m <= 12) (months_named q).
Proof.
  unfold months_named. apply Forall_flat_map.
  unfold months_map.
  repeat (constructor;
          [destruct (Str.contains _ q); repeat constructor; lia |]).
  constructor.
Qed.

Lemma in_range_to_13 (lo m : Z) :
  In m (range_to_13 lo) <-> lo <= m <= 12.
Proof.
  unfold range_to_13. rewrite in_map_iff. split.
  - intros [k [<- Hk]]. apply in_seq in Hk. lia.
  - intros H. exists (Z.to_nat (m - lo)). split; [lia |].
    apply in_seq. lia.
Qed.

Lemma length_range_to_13 (lo : Z) :
  List.length (range_to_13 lo) = Z.to_nat (13 - lo).
Proof. unfold range_to_13. rewrite length_map, length_seq. reflexivity. Qed.

(** X4. The months of a query are all from 1 to 12. *)
Theorem months_in_range (query : string) (i : intent) :
  extract query = Ok i ->
  Forall (fun m => 1 <= m <= 12) (months_in_query i).
Proof.
  unfold extract. intros H.
  bind_ok H as sd Hsd. bind_ok H as months Hm. injection H as <-.
  cbn [months_in_query]. unfold months_of in Hm.
  assert (Forall (fun m => 1 <= m <= 12)
            match sd with
            | Some _ => []
            | None => months_named (Str.lower query)
            end) as Hnamed
    by (destruct sd; [constructor | apply months_named_range]).
  destruct (Re.search last_months_pattern (Str.lower query)) as [g |].
  - bind_ok Hm as n Hn. destruct (years_of query).
    + injection Hm as <-. exact Hnamed.
    + injection Hm as <-. apply Forall_forall. intros m Hin.
      apply in_range_to_13 in Hin. lia.
  - injection Hm as <-. exact Hnamed.
Qed.

Lemma months_in_range_witness :
  Forall (fun m => 1 <= m <= 12)
    (months_in_query intent_salinity_august).
Proof.
  apply (months_in_range "Salinity in August"). reflexivity.
Defined.

(** X5. In a query with a year and the words "last N months", the
    months are exactly those from [max(1, 13 - N)] to 12, whatever month
    names or date the query has: [min(N, 12)] months, none for N = 0. *)
Theorem last_months_override (query : string) (i : intent)
    (g : list string) :
  extract query = Ok i ->
  Re.search last_months_pattern (Str.lower query) = Some g ->
  years_in_query i <> [] ->
  exists n,
    Str.int (group g 0) = Ok n
    /\ 0 <= n
    /\ (forall m, In m (months_in_query i) <-> Z.max 1 (13 - n) <= m <= 12)
    /\ Z.of_nat (List.length (months_in_query i)) = Z.min n 12.
Proof.
  unfold extract. intros H Hlast Hyears.
  bind_ok H as sd Hsd. bind_ok H as months Hm. injection H as <-.
  cbn [months_in_query years_in_query] in *.
  unfold months_of in Hm. rewrite Hlast in Hm.
  apply search_groups in Hlast. destruct Hlast as [p [m [E <-]]].
  apply last_months_groups in E. destruct E as [t [Eg [Ht Hlen]]].
  rewrite Eg in *. cbn [group nth] in *.
  destruct (Z.ltb_spec Str.max_str_digits (Z.of_nat (String.length t)))
    as [Hlong | Hshort].
  { rewrite (int_too_long t Hlong) in Hm. discriminate Hm. }
  rewrite (int_of_number t Ht Hlen Hshort) in *. unfold rbind in Hm.
  destruct (int_acc_value t Ht 0) as [_ [B _]].
  exists (Str.int_acc 0 t). split; [reflexivity |]. split; [exact B |].
  destruct (years_of query); [contradiction |].
  assert (months = range_to_13 (Z.max 1 (13 - Str.int_acc 0 t))) as ->
    by (injection Hm as <-; reflexivity).
  split; [intros k; apply in_range_to_13 |].
  rewrite length_range_to_13. lia.
Qed.

Lemma last_months_override_witness :
  exists n,
    Str.int (group ["6"] 0) = Ok n
    /\ 0 <= n
    /\ (forall m,
          In m (months_in_query
                  (mkIntent "last 6 months of 2023 in may" ["2023"]
                     [7; 8; 9; 10; 11; 12] None false))
          <-> Z.max 1 (13 - n) <= m <= 12)
    /\ Z.of_nat (List.length
                   (months_in_query
                      (mkIntent "last 6 months of 2023 in may" ["2023"]
                         [7; 8; 9; 10; 11; 12] None false)))
       = Z.min n 12.
Proof.
  apply (last_months_override "Last 6 months of 2023 in May").
  - reflexivity.
  - reflexivity.
  - discriminate.
Defined.

(** ** Month names *)

Lemma lower_char_idempotent (c : ascii) :
  Str.lower_char (Str.lower_char c) = Str.lower_char c.
Proof.
  destruct c as [[] [] [] [] [] [] [] []]; vm_compute; reflexivity.
Qed.

Lemma lower_idempotent (s : string) : Str.lower (Str.lower s) = Str.lower s.
Proof.
  induction s as [| c s IH]; simpl; [reflexivity |].
  rewrite lower_char_idempotent, IH. reflexivity.
Qed.

(** X6. [_month_to_number] gives a number from 1 to 12; it does not
    depend on the case of the letters; it gives every name of the table
    its number, and 1 to whatever is not in the table. *)
Theorem month_to_number_table :
  (forall month_str, 1 <= _month_to_number month_str <= 12)
  /\ (forall month_str,
        _month_to_number (Str.lower month_str) = _month_to_number month_str)
  /\ (forall name n, In (name, n) months_map -> _month_to_number name = n)
  /\ (forall month_str,
        ~ In (Str.lower month_str) (map fst months_map) ->
        _month_to_number month_str = 1).
Proof.
  split; [apply month_to_number_range |]. split; [| split].
  - intros s. unfold _month_to_number. rewrite lower_idempotent. reflexivity.
  - intros name n H. unfold months_map in H. simpl in H.
    repeat (destruct H as [H | H]; [injection H as <- <-; reflexivity |]).
    contradiction.
  - intros s H. unfold _month_to_number.
    destruct (get (Str.lower s) months_map) as [n |] eqn:E; [| reflexivity].
    exfalso. apply H. unfold months_map in *. cbn [get map fst] in *.
    repeat match type of E with
           | (if String.eqb ?a ?b then _ else _) = _ =>
               destruct (String.eqb_spec a b) as [-> | _];
               [simpl; tauto |]
           end.
    discriminate E.
Qed.

Lemma month_to_number_table_witness :
  _month_to_number "AUGUST" = 8 /\ _month_to_number "monsoon" = 1.
Proof.
  destruct month_to_number_table as [_ [Hcase [Htable Hdefault]]]. split.
  - rewrite <- (Hcase "AUGUST"). apply Htable. vm_compute.
    repeat (first [left; reflexivity | right]).
  - apply Hdefault. vm_compute. intros H.
    repeat (destruct H as [H | H]; [discriminate H |]). exact H.
Defined.

(** ** Tiers of the scorers *)

(** X7. In the tier of the specific date, of two profiles that
    differ by the day only (neither being 0, which reads as no day), the
    one whose day is not farther from the day of the query does not score
    less. *)
Theorem strict_date_score_closer_day (sd : date) (y m : option Z)
    (dt : option string) (d1 d2 : Z) :
  d1 <> 0 -> d2 <> 0 ->
  Z.abs (d1 - d_day sd) <= Z.abs (d2 - d_day sd) ->
  strict_date_score sd (mkTemporal y m (Some d2) dt)
  <= strict_date_score sd (mkTemporal y m (Some d1) dt).
Proof.
  intros H1 H2 H. unfold strict_date_score, truthy, eq_int.
  cbn [day year month].
  destruct (match y with Some k => k =? d_year sd | None => false end
            && match m with Some k => k =? d_month sd | None => false end);
    [| lia].
  apply Z.eqb_neq in H1, H2. rewrite H1, H2. cbn [negb andb].
  destruct (Z.eqb_spec d1 (d_day sd)), (Z.eqb_spec d2 (d_day sd));
    destruct (Z.leb_spec (Z.abs (d1 - d_day sd)) 3),
             (Z.leb_spec (Z.abs (d2 - d_day sd)) 3),
             (Z.leb_spec (Z.abs (d1 - d_day sd)) 7),
             (Z.leb_spec (Z.abs (d2 - d_day sd)) 7); lia.
Qed.

Lemma strict_date_score_closer_day_witness :
  strict_date_score (mkDate 2023 8 15)
    (mkTemporal (Some 2023) (Some 8) (Some 20) None)
  <= strict_date_score (mkDate 2023 8 15)
       (mkTemporal (Some 2023) (Some 8) (Some 13) None).
Proof.
  apply strict_date_score_closer_day; [discriminate | discriminate |].
  vm_compute. discriminate.
Defined.

Lemma strict_temporal_score_nonneg (i : intent) (t : temporal_t) (n : Z) :
  strict_temporal_score i t = Ok n -> 0 <= n.
Proof.
  unfold strict_temporal_score, strict_year_score. intros H.
  destruct (specific_date i) as [sd |].
  { injection H as <-. apply strict_date_score_nonneg. }
  destruct (years_in_query i); [injection H as <-; lia |].
  destruct (in_strs (str_of (year t)) (s :: l)); [| injection H as <-; lia].
  destruct (months_in_query i); [injection H as <-; lia |].
  destruct (in_ints (month t) (z :: l0)); [injection H as <-; lia |].
  bind_ok H as near Hnear. injection H as <-.
  destruct near; simpl; lia.
Qed.

Lemma strict_temporal_score_values (i : intent) (t : temporal_t) (n : Z) :
  strict_temporal_score i t = Ok n -> n = 0 \/ 8 <= n.
Proof.
  unfold strict_temporal_score, strict_year_score, strict_date_score.
  intros H. destruct (specific_date i) as [sd |].
  { injection H as <-.
    repeat match goal with
           | |- context [if ?b then _ else _] => destruct b
           | |- context [match ?x with Some _ => _ | None => _ end] =>
               destruct x
           end; lia. }
  destruct (years_in_query i); [injection H as <-; lia |].
  destruct (in_strs (str_of (year t)) (s :: l)); [| injection H as <-; lia].
  destruct (months_in_query i); [injection H as <-; lia |].
  destruct (in_ints (month t) (z :: l0)); [injection H as <-; lia |].
  bind_ok H as near Hnear. injection H as <-.
  destruct near; simpl; lia.
Qed.

Lemma region_score_multiple (weight : Z) (q : string) (regions : list string) :
  exists k, 0 <= k /\ region_score weight q regions = weight * k.
Proof.
  unfold region_score.
  assert (forall acc, exists k,
            0 <= k
            /\ fold_left (fun relevance_score region =>
                            relevance_score
                            + bonus (Str.contains (region_clean region) q)
                                weight)
                 regions acc
               = acc + weight * k) as H.
  { induction regions as [| r rs IH]; intros acc; cbn [fold_left].
    - exists 0. lia.
    - destruct (IH (acc + bonus (Str.contains (region_clean r) q) weight))
        as [k [Hk ->]].
      destruct (Str.contains (region_clean r) q); cbn [bonus].
      + exists (k + 1). lia.
      + exists k. lia. }
  destruct (H 0) as [k [Hk ->]]. exists k. split; [exact Hk | lia].
Qed.

Lemma strict_parameter_score_multiple (i : intent) (m : measurements_t) :
  exists k, 0 <= k /\ strict_parameter_score i m = 3 * k.
Proof.
  unfold strict_parameter_score.
  repeat match goal with
         | |- context [bonus ?b 3] =>
             let k := fresh "k" in
             let E := fresh "E" in
             assert (exists k, 0 <= k <= 1 /\ bonus b 3 = 3 * k) as [k [? E]]
               by (destruct b; [exists 1 | exists 0]; cbn [bonus]; lia);
             rewrite E; clear E
         end.
  eexists. split; [| rewrite <- !Z.mul_add_distr_l; reflexivity]. lia.
Qed.

(** X8. For a generic query, the profile tagged as uploaded scores
    exactly 10 more than the same profile untagged, unless the untagged
    one scores 1: a score of 1 comes from the temperature rule only, and
    the tagged profile then scores 10, which is 9 more. *)
Theorem uploaded_boost (i : intent) (name : string) (p : profile) (s : Z) :
  is_generic_query i = true ->
  _is_uploaded p = false ->
  strict_score i p = Ok s ->
  strict_score i (tag_uploaded name p)
  = Ok (if s =? 1 then s + 9 else s + 10)
  /\ (s = 1 -> core_present (measurements_of p) "TEMP" = true).
Proof.
  intros Hg Hu H. unfold strict_score in *.
  change (temporal_of (tag_uploaded name p)) with (temporal_of p).
  change (geospatial_of (tag_uploaded name p)) with (geospatial_of p).
  change (measurements_of (tag_uploaded name p)) with (measurements_of p).
  change (_is_uploaded (tag_uploaded name p)) with true.
  rewrite Hg, Hu in *. cbn [andb bonus] in *.
  destruct (strict_temporal_score i (temporal_of p)) as [n | e] eqn:E;
    [| discriminate H].
  unfold rbind in *.
  pose proof (strict_temporal_score_values i _ n E) as Hn.
  destruct (region_score_multiple 5 (query_lower i)
              (regions_of (geospatial_of p))) as [kr [Hkr Er]].
  destruct (strict_parameter_score_multiple i (measurements_of p))
    as [kq [Hkq Eq]].
  rewrite Er, Eq in *.
  destruct (Z.eqb_spec (10 + n + 5 * kr + 3 * kq) 0) as [E0 | _];
    [exfalso; lia |].
  destruct (Z.eqb_spec (0 + n + 5 * kr + 3 * kq) 0) as [E0 | N0].
  - assert (s = bonus (core_present (measurements_of p) "TEMP") 1) as ->
      by congruence.
    destruct (core_present (measurements_of p) "TEMP"); cbn [bonus].
    + change (1 =? 1) with true. cbv iota.
      split; [apply f_equal; lia | reflexivity].
    + change (0 =? 1) with false. cbv iota.
      split; [apply f_equal; lia | discriminate].
  - assert (s = 0 + n + 5 * kr + 3 * kq) as -> by congruence.
    destruct (Z.eqb_spec (0 + n + 5 * kr + 3 * kq) 1) as [E1 | N1];
      [exfalso; lia |].
    split; [apply f_equal; lia | intros E1; exfalso; lia].
Qed.

Lemma uploaded_boost_witness :
  strict_score (mkIntent "show me the salinity" [] [] None true)
    (tag_uploaded "float.nc" profile_august_2022) = Ok 10
  /\ strict_score (mkIntent "show me the salinity" [] [] None true)
       (tag_uploaded "float.nc" profile_bay_of_bengal) = Ok 13
  /\ core_present (measurements_of profile_august_2022) "TEMP" = true.
Proof.
  split; [| split].
  - apply (proj1 (uploaded_boost
                    (mkIntent "show me the salinity" [] [] None true)
                    "float.nc" profile_august_2022 1
                    eq_refl eq_refl eq_refl)).
  - apply (proj1 (uploaded_boost
                    (mkIntent "show me the salinity" [] [] None true)
                    "float.nc" profile_bay_of_bengal 3
                    eq_refl eq_refl eq_refl)).
  - apply (proj2 (uploaded_boost
                    (mkIntent "show me the salinity" [] [] None true)
                    "float.nc" profile_august_2022 1
                    eq_refl eq_refl eq_refl)).
    reflexivity.
Defined.


Lemma flexible_date_score_nonneg (sd : date) (t : temporal_t) :
  0 <= flexible_date_score sd t.
Proof.
  unfold flexible_date_score, bonus.
  repeat match goal with
         | |- context [match ?x with Some _ => _ | None => _ end] => destruct x
         | |- context [if ?b then _ else _] => destruct b
         end; lia.
Qed.

Lemma flexible_parameter_score_nonneg (q : string) (m : measurements_t) :
  0 <= flexible_parameter_score q m.
Proof.
  unfold flexible_parameter_score.
  destruct (Str.contains "temperature" q || Str.contains "salinity" q
            || Str.contains "analysis" q); [| lia].
  destruct (core_present m "TEMP"), (core_present m "PSAL"); simpl; lia.
Qed.

Lemma flexible_temporal_score_cases (years : list string)
    (target_years : list Z) (sd : option date) (t : temporal_t) :
  target_years_of years = Ok target_years ->
  if is_some sd || negb (nonempty years) || is_some (year t)
  then exists n, flexible_temporal_score years sd t = Ok n /\ 0 <= n
  else flexible_temporal_score years sd t = Raise TypeError.
Proof.
  intros Hy. unfold flexible_temporal_score, flexible_year_score.
  cbv zeta.
  destruct sd as [sd |]; cbn [is_some orb].
  { eexists. split; [reflexivity | apply flexible_date_score_nonneg]. }
  destruct years as [| y ys]; cbn [nonempty negb orb].
  { exists 0. split; [reflexivity | lia]. }
  rewrite Hy. cbn [rbind].
  assert (target_years <> []) as Hne.
  { intros ->. simpl in Hy. bind_ok Hy as n Hn. bind_ok Hy as l Hl.
    discriminate Hy. }
  destruct (year t) as [k |]; cbn [is_some].
  - destruct (in_ints (Some k) target_years).
    + exists 8. split; [reflexivity | lia].
    + rewrite any_within_some. eexists. split; [reflexivity |].
      apply bonus_nonneg. lia.
  - rewrite in_ints_none, (any_within_none 1 target_years Hne). reflexivity.
Qed.

Lemma flexible_month_score_cases (months : list Z) (t : temporal_t) :
  if negb (nonempty months) || is_some (month t)
  then exists n, flexible_month_score months t = Ok n /\ 0 <= n
  else flexible_month_score months t = Raise TypeError.
Proof.
  unfold flexible_month_score. cbv zeta.
  destruct months as [| m ms]; cbn [nonempty negb orb].
  { exists 0. split; [reflexivity | lia]. }
  destruct (month t) as [k |]; cbn [is_some].
  - destruct (in_ints (Some k) (m :: ms)).
    + exists 6. split; [reflexivity | lia].
    + rewrite any_within_some. eexists. split; [reflexivity |].
      apply bonus_nonneg. lia.
  - rewrite in_ints_none. reflexivity.
Qed.

(** X10. The relaxed scorer passes over a profile exactly when the
    year tier applies (no specific date, some year in the query) and the
    profile has no year, or the query has months and the profile has no
    month: its scoring then raises a [TypeError]; otherwise the score is a
    non-negative integer. *)
Theorem flexible_score_cases (query_lower : string) (years : list string)
    (months target_years : list Z) (specific_date : option date)
    (p : profile) :
  target_years_of years = Ok target_years ->
  (skipped_by_flexible years months specific_date p ->
   flexible_score query_lower years months specific_date p = Raise TypeError)
  /\ (~ skipped_by_flexible years months specific_date p ->
      exists s,
        flexible_score query_lower years months specific_date p = Ok s
        /\ 0 <= s).
Proof.
  intros Hy.
  pose proof (flexible_temporal_score_cases years target_years specific_date
                (temporal_of p) Hy) as HT.
  pose proof (flexible_month_score_cases months (temporal_of p)) as HM.
  assert (0 <= region_score 4 query_lower (regions_of (geospatial_of p)))
    by (apply region_score_nonneg; lia).
  pose proof (flexible_parameter_score_nonneg query_lower (measurements_of p)).
  unfold flexible_score.
  change (match specific_date with
          | Some sd => Ok (flexible_date_score sd (temporal_of p))
          | None =>
              match years with
              | [] => Ok 0
              | _ :: _ => flexible_year_score years (temporal_of p)
              end
          end)
    with (flexible_temporal_score years specific_date (temporal_of p)).
  unfold skipped_by_flexible.
  destruct (is_some specific_date || negb (nonempty years)
            || is_some (year (temporal_of p))) eqn:ET.
  - destruct HT as [n [-> Hn]]. unfold rbind at 1.
    assert (~ (specific_date = None /\ years <> []
               /\ year (temporal_of p) = None)) as NT.
    { intros [Hsd [Hne Hnone]]. rewrite Hsd, Hnone in ET.
      destruct years; [contradiction | discriminate ET]. }
    destruct (negb (nonempty months) || is_some (month (temporal_of p)))
      eqn:EM.
    + destruct HM as [k [-> Hk]]. unfold rbind.
      split.
      * intros [N | [Hne Hnone]]; [contradiction |].
        rewrite Hnone in EM. destruct months; [contradiction |].
        discriminate EM.
      * intros _. eexists. split; [reflexivity | lia].
    + rewrite HM. split; [reflexivity |].
      intros N. exfalso. apply N. right.
      destruct months; [discriminate EM |].
      destruct (month (temporal_of p)); [discriminate EM |].
      split; [discriminate | reflexivity].
  - rewrite HT. split; [reflexivity |].
    intros N. exfalso. apply N. left.
    destruct specific_date; [discriminate ET |].
    destruct years; [discriminate ET |].
    destruct (year (temporal_of p)); [discriminate ET |].
    repeat split. discriminate.
Qed.

Lemma flexible_score_cases_witness :
  exists s,
    flexible_score "august 2021" ["2021"] [8; 8] None profile_august_2020
    = Ok s /\ 0 <= s.
Proof.
  apply (proj2 (flexible_score_cases "august 2021" ["2021"] [8; 8] [2021]
                  None profile_august_2020 eq_refl)).
  intros [[_ [_ N]] | [_ N]]; discriminate N.
Defined.

(** ** Escalation and temperature *)

Lemma strict_score_with_temperature (i : intent) (p : profile) :
  ~ skipped_by_strict i p ->
  core_present (measurements_of p) "TEMP" = true ->
  exists s, strict_score i p = Ok s /\ 1 <= s.
Proof.
  intros H Htemp. destruct (strict_temporal_score_ok i p H) as [n [Hn Hpos]].
  unfold strict_score. rewrite Hn. unfold rbind.
  assert (0 <= bonus (is_generic_query i && _is_uploaded p) 10)
    by (apply bonus_nonneg; lia).
  assert (0 <= region_score 5 (query_lower i) (regions_of (geospatial_of p)))
    by (apply region_score_nonneg; lia).
  pose proof (strict_parameter_score_nonneg i (measurements_of p)).
  match goal with
  | |- context [if ?t =? 0 then _ else _] => destruct (t =? 0) eqn:E
  end.
  - eexists. split; [reflexivity |]. rewrite Htemp. simpl. lia.
  - apply Z.eqb_neq in E. eexists. split; [reflexivity |]. lia.
Qed.

(** X11. When some profile of the data has a temperature and is not
    passed over by the strict scorer, the search does not escalate: it
    shows no notice and returns a non-empty ranking by the strict
    score. *)
Theorem temperature_blocks_escalation (query : string)
    (argo_data : list profile) (log : list notice) (i : intent) :
  extract query = Ok i ->
  (exists p, In p argo_data
             /\ core_present (measurements_of p) "TEMP" = true
             /\ ~ skipped_by_strict i p) ->
  exists p out,
    search_relevant_data query argo_data log = (Ok (p :: out), log)
    /\ ranked_by (strict_score i) argo_data (p :: out).
Proof.
  intros Hi [p [Hin [Htemp Hskip]]].
  destruct (strict_score_with_temperature i p Hskip Htemp) as [s [Hs Hpos]].
  assert (rank (strict_score i) argo_data <> []) as Hne.
  { intros E. apply rank_nil_iff in E. specialize (E p s Hin Hs). lia. }
  pose proof (rank_ranked (strict_score i) argo_data) as Hr.
  rewrite (search_not_escalating _ _ _ i Hi).
  - destruct (rank (strict_score i) argo_data) as [| e l] eqn:E;
      [contradiction |].
    exists (fst e), (map fst (firstn 14 l)). split; [reflexivity | exact Hr].
  - unfold escalates.
    destruct (rank (strict_score i) argo_data); [contradiction | reflexivity].
Qed.

Lemma temperature_blocks_escalation_witness :
  exists p out,
    search_relevant_data "august 2021" [profile_august_2022] []
    = (Ok (p :: out), [])
    /\ ranked_by (strict_score (mkIntent "august 2021" ["2021"] [8; 8] None
                                  false))
         [profile_august_2022] (p :: out).
Proof.
  apply (temperature_blocks_escalation "august 2021" [profile_august_2022] []
           (mkIntent "august 2021" ["2021"] [8; 8] None false) eq_refl).
  exists profile_august_2022. split; [left; reflexivity |].
  split; [reflexivity |]. intros [_ [_ [_ N]]]. discriminate N.
Defined.

(** ** Outcomes of the summarizer *)

Lemma comparison_returns (profiles : list profile) (query : string) :
  is_comparison query = true ->
  exists text, create_context_summary profiles query = Ok text.
Proof.
  unfold is_comparison, create_context_summary. intros H.
  destruct profiles as [| p0 ps]; [eexists; reflexivity |].
  rewrite H. destruct (sorted_years_ok query (p0 :: ps)) as [keys ->].
  eexists. reflexivity.
Qed.

(** X12. The summarizer raises only a [TypeError], and exactly when
    the query is not a comparison of years and one of the first ten
    profiles has no month or no day. *)
Theorem summary_raises_iff (profiles : list profile) (query : string)
    (e : exn) :
  create_context_summary profiles query = Raise e <->
  e = TypeError
  /\ is_comparison query = false
  /\ exists p, In p (firstn 10 profiles) /\ lacks_date p = true.
Proof.
  assert (forall p, lacks_date p = true <->
            month (temporal_of p) = None \/ day (temporal_of p) = None)
    as Hlacks.
  { intros p. unfold lacks_date.
    destruct (month (temporal_of p)), (day (temporal_of p)); simpl;
      split; intros H; try reflexivity; try discriminate H; auto;
      destruct H as [H | H]; discriminate H. }
  split.
  - intros H. destruct (is_comparison query) eqn:Ec.
    { destruct (comparison_returns profiles query Ec) as [text Ht].
      rewrite Ht in H. discriminate H. }
    destruct (existsb lacks_date (firstn 10 profiles)) eqn:Ex.
    + apply existsb_exists in Ex. destruct Ex as [p [Hp Hl]].
      rewrite (summary_raises profiles query Ec) in H.
      * injection H as <-. eauto.
      * exists p. split; [exact Hp | apply Hlacks; exact Hl].
    + destruct (summary_returns profiles query) as [text Ht].
      * intros p Hp.
        assert (lacks_date p = false) as Hl.
        { destruct (lacks_date p) eqn:El; [| reflexivity].
          assert (existsb lacks_date (firstn 10 profiles) = true) as Ex'
            by (apply existsb_exists; eauto).
          rewrite Ex in Ex'. discriminate Ex'. }
        unfold lacks_date in Hl.
        destruct (month (temporal_of p)), (day (temporal_of p));
          try discriminate Hl.
        split; discriminate.
      * rewrite Ht in H. discriminate H.
  - intros [-> [Ec [p [Hp Hl]]]]. apply summary_raises; [exact Ec |].
    exists p. split; [exact Hp | apply Hlacks; exact Hl].
Qed.

(** ** Context of a request *)

Lemma in_firstn {A : Type} (n : nat) (l : list A) (x : A) :
  In x (firstn n l) -> In x l.
Proof.
  intros H. rewrite <- (firstn_skipn n l). apply in_or_app. left. exact H.
Qed.

Lemma in_top15_rank (score : profile -> result Z) (argo_data : list profile)
    (p : profile) :
  In p (top15 (rank score argo_data)) -> In p argo_data.
Proof.
  unfold top15, rank. intros H. apply in_map_iff in H.
  destruct H as [e [<- He]]. apply in_firstn in He.
  apply (Permutation_in e (sort_perm _)) in He.
  apply in_score_all in He. tauto.
Qed.

(** The search returns profiles of the data only. *)
Lemma search_subset (query : string) (argo_data out : list profile)
    (log log' : list notice) :
  search_relevant_data query argo_data log = (Ok out, log') ->
  forall p, In p out -> In p argo_data.
Proof.
  unfold search_relevant_data, search_relevant_data_flexible, bind, lift.
  destruct (extract query) as [i | e]; [| discriminate].
  unfold ret at 1.
  destruct (escalates i (rank (strict_score i) argo_data)).
  - destruct (specific_date i); unfold info, ret; intros H;
      injection H as <- _; apply in_top15_rank.
  - unfold ret. intros H. injection H as <- _. apply in_top15_rank.
Qed.

Lemma in_filter_filename (name : string) (files : list profile)
    (p : profile) :
  In p (filter (has_filename name) files) ->
  In p files /\ _uploaded_filename p = Some name.
Proof.
  intros H. apply filter_In in H. destruct H as [Hin Hn].
  split; [exact Hin |]. unfold has_filename in Hn.
  destruct (_uploaded_filename p) as [n |]; [| discriminate Hn].
  apply String.eqb_eq in Hn. subst n. reflexivity.
Qed.

(** X13. With an active file under which some file was uploaded,
    every profile that the context is built from is an uploaded file of
    that name: the other data is not searched. *)
Theorem active_file_only (name : string)
    (uploaded_files argo_data relevant_profiles : list profile)
    (last_user_message context : string) (log log' : list notice) :
  name <> "" ->
  (exists f, In f uploaded_files /\ _uploaded_filename f = Some name) ->
  build_context (Some name) uploaded_files argo_data last_user_message log
  = (Ok (relevant_profiles, context), log') ->
  forall p, In p relevant_profiles ->
    In p uploaded_files /\ _uploaded_filename p = Some name.
Proof.
  intros Hname [f [Hf Hfn]] H p Hp. unfold build_context in H.
  destruct name as [| c name]; [contradiction |].
  assert (nonempty (filter (has_filename (String c name)) uploaded_files)
          = true) as Hne.
  { assert (In f (filter (has_filename (String c name)) uploaded_files)) as Hin.
    { apply filter_In. split; [exact Hf |]. unfold has_filename.
      rewrite Hfn. apply String.eqb_refl. }
    destruct (filter (has_filename (String c name)) uploaded_files);
      [contradiction | reflexivity]. }
  cbv zeta in H. rewrite Hne in H. unfold bind in H.
  destruct (search_relevant_data last_user_message
              (filter (has_filename (String c name)) uploaded_files) log)
    as [[out | e] log1] eqn:Es; [| discriminate H].
  destruct (nonempty out) eqn:Eo.
  - unfold lift in H.
    destruct (create_context_summary out last_user_message) as [text | e];
      [| discriminate H].
    unfold ret in H. injection H as <- _ _.
    apply in_filter_filename. eapply search_subset; eassumption.
  - unfold ret in H. injection H as <- _ _. contradiction.
Qed.

Lemma active_file_only_witness :
  Forall (fun p =>
            In p [tag_uploaded "float.nc" profile_august_2022;
                  profile_august_2020]
            /\ _uploaded_filename p = Some "float.nc")
    [tag_uploaded "float.nc" profile_august_2022].
Proof.
  apply Forall_forall.
  eapply (active_file_only "float.nc"
            [tag_uploaded "float.nc" profile_august_2022; profile_august_2020]
            [profile_bay_of_bengal;
             tag_uploaded "float.nc" profile_august_2022; profile_august_2020]
            [tag_uploaded "float.nc" profile_august_2022]
            "temperature in 2023" _ [] _).
  - discriminate.
  - eexists. split; [left; reflexivity | reflexivity].
  - vm_compute. reflexivity.
Defined.




(** ** Uploads *)

Lemma is_new_file_spec (name : string) (files : list profile) :
  is_new_file name files = true <-> ~ In (Some name) (filenames files).
Proof.
  unfold is_new_file, filenames. rewrite negb_true_iff. split.
  - intros H Hin. apply in_map_iff in Hin. destruct Hin as [f [Hf Hin]].
    assert (existsb (has_filename name) files = true) as E.
    { apply existsb_exists. exists f. split; [exact Hin |].
      unfold has_filename. rewrite Hf. apply String.eqb_refl. }
    rewrite H in E. discriminate E.
  - intros H. destruct (existsb (has_filename name) files) eqn:E;
      [| reflexivity].
    exfalso. apply H. apply existsb_exists in E. destruct E as [f [Hin Hf]].
    apply in_map_iff. exists f. split; [| exact Hin].
    unfold has_filename in Hf.
    destruct (_uploaded_filename f) as [n |]; [| discriminate Hf].
    apply String.eqb_eq in Hf. subst n. reflexivity.
Qed.

(** X15. An upload keeps the uploaded files tagged and under names
    that are all different, keeps every file that was there, and changes
    the active file only to the name of the file that it appends. *)
Theorem upload_keeps_tags (name : string) (c : conversion)
    (uploaded_files : list profile) (active_file : option string) :
  well_tagged uploaded_files ->
  well_tagged (fst (upload name c uploaded_files active_file))
  /\ (forall f, In f uploaded_files ->
        In f (fst (upload name c uploaded_files active_file)))
  /\ (snd (upload name c uploaded_files active_file) <> active_file ->
      snd (upload name c uploaded_files active_file) = Some name
      /\ exists d,
           fst (upload name c uploaded_files active_file)
           = (uploaded_files ++ [tag_uploaded name d])%list).
Proof.
  intros [Hnd Htag].
  assert (well_tagged (fst (uploaded_files, active_file))
          /\ (forall f, In f uploaded_files ->
                In f (fst (uploaded_files, active_file)))
          /\ (snd (uploaded_files, active_file) <> active_file ->
              snd (uploaded_files, active_file) = Some name
              /\ exists d,
                   fst (uploaded_files, active_file)
                   = (uploaded_files ++ [tag_uploaded name d])%list))
    as Hsame.
  { cbn [fst snd]. split; [split; assumption |].
    split; [auto | intros N; exfalso; apply N; reflexivity]. }
  unfold upload.
  destruct (is_new_file name uploaded_files) eqn:En; [| exact Hsame].
  destruct c as [d | |]; [| exact Hsame ..]. cbn [fst snd].
  apply is_new_file_spec in En. split; [| split].
  - split.
    + unfold filenames in *. rewrite map_app. cbn [map].
      apply NoDup_app; [exact Hnd | constructor; [intros [] | constructor] |].
      intros x Hx [<- | []]. exact (En Hx).
    + apply Forall_app. split; [exact Htag |].
      constructor; [| constructor]. split; [reflexivity |].
      exists name. reflexivity.
  - intros f Hf. apply in_or_app. left. exact Hf.
  - intros _. split; [reflexivity |]. exists d. reflexivity.
Qed.

Lemma upload_keeps_tags_witness :
  well_tagged
    (fst (upload "float.nc" (Converted profile_august_2022) uploaded_pair
            (Some "argo_a.nc")))
  /\ In (tag_uploaded "argo_a.nc" profile_august_2020)
       (fst (upload "float.nc" (Converted profile_august_2022)
               uploaded_pair (Some "argo_a.nc")))
  /\ In (tag_uploaded "argo_b.nc" profile_bay_of_bengal)
       (fst (upload "float.nc" (Converted profile_august_2022)
               uploaded_pair (Some "argo_a.nc")))
  /\ snd (upload "float.nc" (Converted profile_august_2022) uploaded_pair
            (Some "argo_a.nc")) = Some "float.nc"
  /\ exists d,
       fst (upload "float.nc" (Converted profile_august_2022) uploaded_pair
              (Some "argo_a.nc"))
       = (uploaded_pair ++ [tag_uploaded "float.nc" d])%list.
Proof.
  destruct (upload_keeps_tags "float.nc" (Converted profile_august_2022)
              uploaded_pair (Some "argo_a.nc")) as [Htag [Hkeep Hnew]].
  - split.
    + constructor; [intros [H | []]; discriminate H |].
      constructor; [intros [] | constructor].
    + constructor; [split; [reflexivity | eexists; reflexivity] |].
      constructor; [split; [reflexivity | eexists; reflexivity] |].
      constructor.
  - split; [exact Htag |].
    split; [apply Hkeep; left; reflexivity |].
    split; [apply Hkeep; right; left; reflexivity |].
    apply Hnew. vm_compute. discriminate.
Defined.

Lemma filter_filename_length (name : string) (files : list profile) :
  NoDup (filenames files) ->
  (List.length (filter (has_filename name) files) <= 1)%nat.
Proof.
  unfold filenames. induction files as [| f files IH]; intros H.
  - simpl. lia.
  - inversion H as [| x l Hnot Hnd]; subst. specialize (IH Hnd).
    cbn [filter]. destruct (has_filename name f) eqn:Ef; [| lia].
    assert (filter (has_filename name) files = []) as ->; [| simpl; lia].
    destruct (filter (has_filename name) files) as [| g gs] eqn:Eg;
      [reflexivity | exfalso].
    assert (In g (filter (has_filename name) files)) as Hg
      by (rewrite Eg; left; reflexivity).
    apply in_filter_filename in Hg. destruct Hg as [Hin Hn].
    apply Hnot. apply in_map_iff. exists g. split; [| exact Hin].
    unfold has_filename in Ef.
    destruct (_uploaded_filename f) as [n |]; [| discriminate Ef].
    apply String.eqb_eq in Ef. subst n. exact Hn.
Qed.

Lemma top15_rank_length (score : profile -> result Z)
    (argo_data : list profile) :
  (List.length (top15 (rank score argo_data)) <= List.length argo_data)%nat.
Proof.
  unfold top15, rank. rewrite length_map, length_firstn.
  rewrite (Permutation_length (sort_perm _)).
  assert (List.length (score_all score argo_data) <= List.length argo_data)%nat.
  { unfold score_all. induction argo_data as [| p l IH]; [simpl; lia |].
    cbn [flat_map]. rewrite length_app. unfold keep at 1.
    destruct (score p) as [s | e]; [destruct (s >? 0) |]; simpl; lia. }
  lia.
Qed.

Lemma search_length (query : string) (argo_data out : list profile)
    (log log' : list notice) :
  search_relevant_data query argo_data log = (Ok out, log') ->
  (List.length out <= List.length argo_data)%nat.
Proof.
  unfold search_relevant_data, search_relevant_data_flexible, bind, lift.
  destruct (extract query) as [i | e]; [| discriminate].
  unfold ret at 1.
  destruct (escalates i (rank (strict_score i) argo_data)).
  - destruct (specific_date i); unfold info, ret; intros H;
      injection H as <- _; apply top15_rank_length.
  - unfold ret. intros H. injection H as <- _. apply top15_rank_length.
Qed.

(** X16. With uploaded files under different names and an active
    file among them, at most one profile is searched and returned. *)
Theorem active_file_single (name : string)
    (uploaded_files argo_data relevant_profiles : list profile)
    (last_user_message context : string) (log log' : list notice) :
  name <> "" ->
  well_tagged uploaded_files ->
  In (Some name) (filenames uploaded_files) ->
  build_context (Some name) uploaded_files argo_data last_user_message log
  = (Ok (relevant_profiles, context), log') ->
  (List.length relevant_profiles <= 1)%nat.
Proof.
  intros Hname [Hnd _] Hin H. unfold build_context in H.
  destruct name as [| c name]; [contradiction |].
  pose proof (filter_filename_length (String c name) uploaded_files Hnd) as L.
  assert (nonempty (filter (has_filename (String c name)) uploaded_files)
          = true) as Hne.
  { unfold filenames in Hin. apply in_map_iff in Hin.
    destruct Hin as [f [Hfn Hf]].
    assert (In f (filter (has_filename (String c name)) uploaded_files)) as Hi.
    { apply filter_In. split; [exact Hf |]. unfold has_filename.
      rewrite Hfn. apply String.eqb_refl. }
    destruct (filter (has_filename (String c name)) uploaded_files);
      [contradiction | reflexivity]. }
  cbv zeta in H. rewrite Hne in H. unfold bind in H.
  destruct (search_relevant_data last_user_message
              (filter (has_filename (String c name)) uploaded_files) log)
    as [[out | e] log1] eqn:Es; [| discriminate H].
  apply search_length in Es.
  destruct (nonempty out) eqn:Eo.
  - unfold lift in H.
    destruct (create_context_summary out last_user_message) as [text | e];
      [| discriminate H].
    unfold ret in H. injection H as <- _ _. lia.
  - unfold ret in H. injection H as <- _ _. simpl. lia.
Qed.

Lemma active_file_single_witness :
  (List.length [tag_uploaded "float.nc" profile_august_2022] <= 1)%nat.
Proof.
  eapply (active_file_single "float.nc"
            [tag_uploaded "float.nc" profile_august_2022;
             tag_uploaded "other.nc" profile_august_2022]
            [profile_bay_of_bengal]
            [tag_uploaded "float.nc" profile_august_2022]
            "temperature in 2023" _ [] _).
  - discriminate.
  - split.
    + constructor; [simpl; intros [H | []]; discriminate H |].
      constructor; [intros [] | constructor].
    + repeat (constructor; [split; [reflexivity | eexists; reflexivity] |]).
      constructor.
  - left. reflexivity.
  - vm_compute. reflexivity.
Defined.

(** ** Source data *)

Lemma profile_captions_ok (i : nat) (p : profile) :
  snd (profile_captions i p) = has_statistics "TEMP" p
                               && has_statistics "PSAL" p.
Proof.
  unfold profile_captions, variable_caption, has_statistics, statistics_item.
  cbv zeta.
  destruct (present (variable_of _ "TEMP"));
    [destruct (statistics (variable_of _ "TEMP")) |];
    cbn [snd fst negb orb is_some andb];
    try reflexivity;
    (destruct (present (variable_of _ "PSAL"));
     [destruct (statistics (variable_of _ "PSAL")) |]); reflexivity.
Qed.

Lemma source_captions_complete (i : nat)
    (relevant_profiles : list profile) :
  snd (source_captions i relevant_profiles) = true <->
  forall p, In p relevant_profiles ->
    has_statistics "TEMP" p = true /\ has_statistics "PSAL" p = true.
Proof.
  revert i. induction relevant_profiles as [| p rest IH]; intros i.
  - simpl. split; [intros _ p [] | reflexivity].
  - cbn [source_captions]. pose proof (profile_captions_ok i p) as Hp.
    destruct (profile_captions i p) as [shown ok]. cbn [snd] in Hp.
    destruct ok.
    + specialize (IH (S i)).
      destruct (source_captions (S i) rest) as [more ok']. cbn [snd] in *.
      symmetry in Hp. apply andb_true_iff in Hp. rewrite IH. split.
      * intros H q [<- | Hq]; [exact Hp | apply H; exact Hq].
      * intros H q Hq. apply H. right. exact Hq.
    + cbn [snd]. split; [discriminate |]. intros H.
      destruct (H p (or_introl eq_refl)) as [H1 H2].
      rewrite H1, H2 in Hp. discriminate Hp.
Qed.

(** X17. "View source data" ends without a [KeyError] exactly when
    every profile shown that has a temperature, or a salinity, present has
    statistics for it. *)
Theorem view_source_data_completes (relevant_profiles : list profile) :
  snd (view_source_data relevant_profiles) = true <->
  forall p, In p relevant_profiles ->
    has_statistics "TEMP" p = true /\ has_statistics "PSAL" p = true.
Proof. apply source_captions_complete. Qed.

Example view_source_data_key_error :
  snd (view_source_data [profile_august_2022]) = false
  /\ exists text,
       create_context_summary [profile_august_2022] "temperature" = Ok text.
Proof. split; [reflexivity | eexists; vm_compute; reflexivity]. Qed.

(** ** Segments of a summary *)















